(** * dhandhoai: the WhatsApp intake server (conversation engine, supplier
    matching, inquiry broker)

    A shallow embedding of the webhook server: [performSearch],
    [performSearchAndFormat], [sendInquiryToSupplier] and the
    [app.post('/webhook')] handler, with the two in-memory stores
    ([sessions], [inquiries]) threaded explicitly and the external
    collaborators (embedding model, vector index, messaging transport,
    clock) gathered in a [World] that each handler invocation receives. *)

From Stdlib Require Import ZArith Lia List Ascii String Sorted Permutation.
From stdpp Require Import base option list strings gmap pretty sorting.

Open Scope string_scope.

(** ** JavaScript string built-ins used by the server *)

Definition nl : string := String (ascii_of_nat 10) EmptyString.
Definition dquote : string := String (ascii_of_nat 34) EmptyString.

(** [\d] of a regular expression without the unicode flag, and the digits
    [parseInt] accepts in radix 10. *)
Definition isDigit (c : ascii) : bool :=
  let n := nat_of_ascii c in (48 <=? n)%nat && (n <=? 57)%nat.

(** White space and line terminators, as stripped by [trim] and skipped by
    [parseInt] (the one-byte members of the two classes). *)
Definition isWhiteSpace (c : ascii) : bool :=
  let n := nat_of_ascii c in
  ((9 <=? n)%nat && (n <=? 13)%nat) || (n =? 32)%nat.

Fixpoint trimStart (s : string) : string :=
  match s with
  | String c r => if isWhiteSpace c then trimStart r else s
  | EmptyString => EmptyString
  end.

Fixpoint trimEnd (s : string) : string :=
  match s with
  | String c r =>
      match trimEnd r with
      | EmptyString => if isWhiteSpace c then EmptyString else String c EmptyString
      | r' => String c r'
      end
  | EmptyString => EmptyString
  end.

Definition trim (s : string) : string := trimEnd (trimStart s).

(** [toLowerCase] on the letters A to Z; other characters are kept. *)
Definition toLowerChar (c : ascii) : ascii :=
  let n := nat_of_ascii c in
  if (65 <=? n)%nat && (n <=? 90)%nat then ascii_of_nat (n + 32) else c.

Fixpoint toLowerCase (s : string) : string :=
  match s with
  | String c r => String (toLowerChar c) (toLowerCase r)
  | EmptyString => EmptyString
  end.

(** [s.startsWith(p)] *)
Definition startsWith (s p : string) : bool := String.prefix p s.

(** [s.includes(sub)] *)
Fixpoint includes (s sub : string) : bool :=
  startsWith s sub ||
  match s with
  | String _ r => includes r sub
  | EmptyString => false
  end.

(** [s.slice(0, n)] *)
Definition slice0 (n : nat) (s : string) : string := String.substring 0 n s.

Fixpoint dropChars (n : nat) (s : string) : string :=
  match n, s with
  | S n', String _ r => dropChars n' r
  | _, _ => s
  end.

(** [s.replace(pat, '')] with a string pattern: only the first occurrence
    goes. *)
Fixpoint removeFirst (pat s : string) : string :=
  if startsWith s pat then dropChars (String.length pat) s
  else match s with
       | String c r => String c (removeFirst pat r)
       | EmptyString => EmptyString
       end.

(** The longest run of digits at the front of a string, and what follows. *)
Fixpoint takeDigits (s : string) : string :=
  match s with
  | String c r => if isDigit c then String c (takeDigits r) else EmptyString
  | EmptyString => EmptyString
  end.

Fixpoint allDigits (s : string) : bool :=
  match s with
  | String c r => isDigit c && allDigits r
  | EmptyString => true
  end.

Definition digitValue (c : ascii) : Z := (Z.of_nat (nat_of_ascii c) - 48)%Z.

Fixpoint digitsValue (acc : Z) (s : string) : Z :=
  match s with
  | String c r => digitsValue (10 * acc + digitValue c)%Z r
  | EmptyString => acc
  end.

(** [parseInt(s, 10)]: leading white space, an optional sign, then the
    longest run of digits; [None] stands for NaN. JavaScript numbers are
    doubles: the integer is exact below 2^53, which covers every postal
    code. *)
Definition parseInt (s : string) : option Z :=
  let t := trimStart s in
  let '(neg, body) :=
    match t with
    | String "-" r => (true, r)
    | String "+" r => (false, r)
    | _ => (false, t)
    end in
  match takeDigits body with
  | EmptyString => None
  | ds => Some (if neg : bool then (- digitsValue 0 ds)%Z else digitsValue 0 ds)
  end.

(** [incomingMessage.match(/#(\d+)/)]: the first [#] that is followed by a
    digit, with the whole run of digits after it as capture group 1. *)
Fixpoint inquiryIdMatch (s : string) : option string :=
  match s with
  | String c r =>
      if Ascii.eqb c "#" then
        match takeDigits r with
        | EmptyString => inquiryIdMatch r
        | ds => Some ds
        end
      else inquiryIdMatch r
  | EmptyString => None
  end.

(** [/^\d{6}$/.test(s)] *)
Definition isSixDigits (s : string) : bool :=
  (String.length s =? 6)%nat && allDigits s.

(** Truthiness of a string: every string but the empty one. *)
Definition truthy (s : string) : bool :=
  match s with EmptyString => false | _ => true end.

(** [Array.prototype.sort(compare)]. The comparator returns a number, with
    [None] for NaN, which [sort] reads as [+0]. The sort is stable, and
    for a consistent comparator that fixes its result. When the comparator
    is not consistent (NaN against some elements, not against others) the
    language leaves the order to the engine; this model then is an
    insertion sort, as engines run on short arrays. *)
Section ArraySort.
Context {A : Type} (compare : A → A → option Z).

Definition notAfter (a b : A) : bool :=
  match compare a b with
  | Some v => (v <=? 0)%Z
  | None => true
  end.

Fixpoint sortInsert (x : A) (l : list A) : list A :=
  match l with
  | [] => [x]
  | y :: l' => if notAfter x y then x :: l else y :: sortInsert x l'
  end.

Fixpoint Array_sort (l : list A) : list A :=
  match l with
  | [] => []
  | x :: l' => sortInsert x (Array_sort l')
  end.
End ArraySort.

(** ** JavaScript numbers

    The quantity a buyer types goes through [parseFloat] and is kept as a
    double. The server only tests it ([isNaN], [>= 0]), hands it to the
    index as a filter bound and prints it into the supplier message, so the
    model takes the number type and these operations as an interface: what
    is proved holds for every implementation of it. *)
Class JSNumber (Number : Type) := {
  parseFloat : string → Number;
  isNaN : Number → bool;
  geZero : Number → bool;
  Number_toString : Number → string;
}.

(** An implementation that runs: the decimal literal [parseFloat] reads,
    kept exactly as sign, digits and power of ten (it does not round to a
    double), printed as JavaScript prints integers; a number with a
    fraction is printed as digits and exponent, which is not JavaScript's
    notation. *)
Inductive Decimal :=
  | DNaN
  | DInfinity (negative : bool)
  | DFinite (negative : bool) (digits : N) (exponent : Z).

Definition signOf (s : string) : bool * string :=
  match s with
  | String "-" r => (true, r)
  | String "+" r => (false, r)
  | _ => (false, s)
  end.

Definition exponentOf (s : string) : Z :=
  match s with
  | String c r =>
      if Ascii.eqb (toLowerChar c) "e" then
        let '(neg, ds) := signOf r in
        match takeDigits ds with
        | EmptyString => 0%Z
        | e => if neg then (- digitsValue 0 e)%Z else digitsValue 0 e
        end
      else 0%Z
  | EmptyString => 0%Z
  end.

Definition parseDecimal (s : string) : Decimal :=
  let '(neg, body) := signOf (trimStart s) in
  if startsWith body "Infinity" then DInfinity neg
  else
    let int := takeDigits body in
    let rest := dropChars (String.length int) body in
    let frac := match rest with String "." r => takeDigits r | _ => EmptyString end in
    let rest := match rest with
                | String "." r => dropChars (String.length frac) r
                | _ => rest
                end in
    match int ++ frac with
    | EmptyString => DNaN
    | ds => DFinite neg (Z.to_N (digitsValue 0 ds))
                    (exponentOf rest - Z.of_nat (String.length frac))
    end.

Definition decimalToString (d : Decimal) : string :=
  match d with
  | DNaN => "NaN"
  | DInfinity neg => if neg then "-Infinity" else "Infinity"
  | DFinite neg m e =>
      (if neg && negb (m =? 0)%N then "-" else EmptyString) ++ pretty m ++
      (if (e =? 0)%Z then EmptyString else "e" ++ pretty e)
  end.

#[global] Instance DecimalNumber : JSNumber Decimal := {|
  parseFloat := parseDecimal;
  isNaN d := match d with DNaN => true | _ => false end;
  geZero d := match d with
              | DNaN => false
              | DInfinity neg => negb neg
              | DFinite neg m _ => negb neg || (m =? 0)%N
              end;
  Number_toString := decimalToString;
|}.

Section Server.
Context {Number : Type} `{!JSNumber Number}.

(** ** Data model *)

(** A property of a JavaScript object that may be absent, [null] or set. *)
Inductive Field (A : Type) :=
  | Undefined
  | Null
  | Value (a : A).
Global Arguments Undefined {A}.
Global Arguments Null {A}.
Global Arguments Value {A} a.

(** [session.data.proximity] only ever receives one of the two string
    literals the PROXIMITY step accepts. *)
Inductive Proximity := same | pan.

(** [session.data]: [product_name] and [category] are absent or a string;
    [quantity] and [pincode] can also be [null]. *)
Record Request := {
  product_name : option string;
  category : option string;
  quantity : Field Number;
  pincode : Field string;
  proximity : option Proximity;
}.

Definition emptyRequest : Request :=
  {| product_name := None; category := None; quantity := Undefined;
     pincode := Undefined; proximity := None |}.

(** The values [session.state] takes; [OTHER] stands for any string the
    [switch] does not list (its [default] branch). *)
Inductive State :=
  | START | PRODUCT_NAME | CATEGORY | QUANTITY | PINCODE | PROXIMITY | END
  | OTHER.

Record Session := { state : State; data : Request }.

(** A match of the index, with the metadata the server reads. *)
Record Candidate := {
  Product_Name : string;
  PIN_Code : string;
  Seller_POC_Contact_Number : option string;
  Seller_Name : option string;
}.

Record Supplier := { number : option string; name : option string }.

Record Inquiry := {
  user : string;
  productName : option string;
  suppliers : list Supplier;
}.

(** What [client.messages.create] is asked to send. *)
Record Message := { msg_from : string; msg_to : string; msg_body : string }.

Record Filters := {
  Product_Category_eq : option string;
  Minimum_Order_Quantity_lte : option Number;
}.

Record QueryParams := {
  vector : list Number;
  topK : N;
  includeMetadata : bool;
  filter : option Filters;
}.

(** The external collaborators as one handler invocation meets them.
    [None] from [embedder] or [index_query] is a rejected promise;
    [messages_create] tells whether the transport took the message (it
    throws otherwise); [Date_now] is the clock reading. *)
Record World := {
  embedder : string → option (list Number);
  index_query : QueryParams → option (list Candidate);
  messages_create : Message → bool;
  Date_now : N;
}.

(** The two stores of the process and the messages the transport took.
    [sessions] and [inquiries] are plain objects used as maps from sender
    address and inquiry id; a finite map stands for each (sender addresses
    are taken not to be names that every object inherits). *)
Record Server := {
  sessions : gmap string Session;
  inquiries : gmap string Inquiry;
  outbox : list Message;
}.

Definition initialServer : Server :=
  {| sessions := ∅; inquiries := ∅; outbox := [] |}.

Definition twilioNumber : string := "whatsapp:+14155238886".

(** ** Matching engine: [performSearch] *)

Definition someTruthy (o : option string) : option string :=
  match o with
  | Some s => if truthy s then Some s else None
  | None => None
  end.

Definition fieldTruthy (f : Field string) : option string :=
  match f with
  | Value s => if truthy s then Some s else None
  | _ => None
  end.

Definition fieldNumber (f : Field Number) : option Number :=
  match f with
  | Value q => Some q
  | _ => None
  end.

Definition buildFilters (d : Request) : Filters :=
  {| Product_Category_eq := someTruthy (category d);
     Minimum_Order_Quantity_lte := fieldNumber (quantity d) |}.

Definition noKeys (f : Filters) : bool :=
  match Product_Category_eq f, Minimum_Order_Quantity_lte f with
  | None, None => true
  | _, _ => false
  end.

Definition buildQuery (queryVector : list Number) (d : Request) : QueryParams :=
  let filters := buildFilters d in
  {| vector := queryVector; topK := 1000; includeMetadata := true;
     filter := if noKeys filters then None else Some filters |}.

Definition queryText (d : Request) : string :=
  match someTruthy (product_name d) with
  | Some p => p
  | None => "chemicals"
  end.

Definition filterByProductName (d : Request) (matches : list Candidate)
  : list Candidate :=
  match someTruthy (product_name d) with
  | Some p =>
      let productNameLower := toLowerCase p in
      List.filter (λ m, includes (toLowerCase (Product_Name m)) productNameLower)
                  matches
  | None => matches
  end.

(** [Math.abs(pin - userPin)], NaN when either does not parse. *)
Definition pinDistance (userPincode : string) (m : Candidate) : option Z :=
  match parseInt (PIN_Code m), parseInt userPincode with
  | Some pin, Some userPin => Some (Z.abs (pin - userPin))
  | _, _ => None
  end.

Definition comparePins (userPincode : string) (a b : Candidate) : option Z :=
  match pinDistance userPincode a, pinDistance userPincode b with
  | Some da, Some db => Some (da - db)%Z
  | _, _ => None
  end.

Definition applyProximity (d : Request) (matches : list Candidate)
  : list Candidate :=
  match fieldTruthy (pincode d), proximity d with
  | Some pin, Some same =>
      let pincodePrefix := slice0 2 pin in
      take 5 (List.filter (λ m, startsWith (PIN_Code m) pincodePrefix) matches)
  | Some pin, Some pan =>
      take 5 (Array_sort (comparePins pin) matches)
  | _, _ => take 5 matches
  end.

(** [None]: the returned promise is rejected (the embedder threw). An
    error of the index is caught inside and gives the empty list. *)
Definition performSearch (w : World) (d : Request) : option (list Candidate) :=
  match embedder w (queryText d) with
  | None => None
  | Some queryVector =>
      match index_query w (buildQuery queryVector d) with
      | None => Some []
      | Some matches => Some (applyProximity d (filterByProductName d matches))
      end
  end.

(** ** Notification dispatcher and inquiry broker *)

Definition orElse (o : option string) (dflt : string) : string :=
  match someTruthy o with Some s => s | None => dflt end.

(** A template literal prints an absent property as [undefined]. *)
Definition interpolate (o : option string) : string :=
  match o with Some s => s | None => "undefined" end.

Definition inquiryBody (productName category : option string)
    (quantity : Field Number) (inquiryId : string) : string :=
  "Please provide your quotation for inquiry #" ++ inquiryId ++ ":" ++ nl ++
  "Product: " ++ orElse productName "Not specified" ++ nl ++
  "Category: " ++ orElse category "Not specified" ++ nl ++
  "Quantity: " ++
    match quantity with
    | Value q => Number_toString q
    | _ => "Not specified"
    end ++ nl ++
  "Send your quotation via WhatsApp only, including the inquiry number.".

Definition logSent (m : Message) (srv : Server) : Server :=
  {| sessions := sessions srv; inquiries := inquiries srv;
     outbox := outbox srv ++ [m] |}.

(** A failed send is caught and logged: nothing else changes. *)
Definition sendInquiryToSupplier (w : World) (supplierNumber : string)
    (productName category : option string) (quantity : Field Number)
    (inquiryId : string) (srv : Server) : Server :=
  let m := {| msg_from := twilioNumber;
              msg_to := "whatsapp:" ++ supplierNumber;
              msg_body := inquiryBody productName category quantity inquiryId |} in
  if messages_create w m then logSent m srv else srv.

Definition toSupplier (m : Candidate) : Supplier :=
  {| number := Seller_POC_Contact_Number m; name := Seller_Name m |}.

Definition contactNumbers (matches : list Candidate) : list string :=
  omap (λ m, someTruthy (Seller_POC_Contact_Number m)) matches.

Definition recordInquiry (inquiryId : string) (i : Inquiry) (srv : Server) : Server :=
  {| sessions := sessions srv; inquiries := <[inquiryId := i]> (inquiries srv);
     outbox := outbox srv |}.

Definition msgNoSuppliers : string := "No suppliers found matching your criteria.".
Definition msgNoContacts : string := "No suppliers with contact numbers found.".
Definition msgSent (inquiryId : string) (n : nat) : string :=
  "We have sent your inquiry #" ++ inquiryId ++ " to " ++ pretty n ++
  " suppliers. You will receive their responses within 24 hours.".

(** The response is [None] when [performSearch] rejects; nothing has been
    written by then. *)
Definition performSearchAndFormat (w : World) (d : Request) (fromNumber : string)
    (srv : Server) : Server * option string :=
  match performSearch w d with
  | None => (srv, None)
  | Some [] => (srv, Some msgNoSuppliers)
  | Some matches =>
      let inquiryId := pretty (Date_now w) in
      let srv := recordInquiry inquiryId
                   {| user := fromNumber; productName := product_name d;
                      suppliers := map toSupplier matches |} srv in
      match contactNumbers matches with
      | [] => (srv, Some msgNoContacts)
      | supplierNumbers =>
          let srv := foldl (λ acc n, sendInquiryToSupplier w n (product_name d)
                                       (category d) (quantity d) inquiryId acc)
                           srv supplierNumbers in
          (srv, Some (msgSent inquiryId (length supplierNumbers)))
      end
  end.

(** ** The webhook handler *)

(** What the handler does with the HTTP exchange: it sends the TwiML
    reply, or its promise is rejected before any reply is sent. *)
Inductive Outcome :=
  | Reply (responseMessage : string)
  | Rejected.

Definition msgForwarded : string := "Your quotation has been forwarded to the user.".
Definition msgNotParty : string := "Supplier not found for this inquiry.".
Definition msgInquiryNotFound : string := "Inquiry not found.".
Definition msgTerminated : string :=
  "Search terminated. Goodbye! Send " ++ dquote ++ "hello" ++ dquote ++
  " to start a new search.".
Definition askProductName : string :=
  "Enter part of the Product Name (e.g., 'Sodium', or send 'skip' to skip):".
Definition msgWelcome : string :=
  "Welcome to the Chemical Product Search! Connect with suppliers across India."
  ++ nl ++ nl ++ "You can send 'no' or 'stop' at any time to exit."
  ++ nl ++ nl ++ askProductName.
Definition askCategory : string :=
  "Enter the Product Category (e.g., 'Industrial Chemicals', or send 'skip' to skip):".
Definition askQuantity : string :=
  "How much do you need (in units, e.g., 500, or send 'skip' to skip):".
Definition askPincode : string :=
  "Enter your 6-digit PIN code (e.g., 390013, or send 'skip' to skip):".
Definition badQuantity : string :=
  "Please enter a valid non-negative number for quantity, or send 'skip' to skip.".
Definition askProximity : string :=
  "Do you want suppliers from the same state (same) or anywhere in India (pan)? Send 'same' or 'pan':".
Definition badPincode : string :=
  "Please enter a valid 6-digit PIN code, or send 'skip' to skip.".
Definition badProximity : string :=
  "Please send 'same' for same state or 'pan' for pan-India.".
Definition msgRestart : string :=
  "Let's start a new search." ++ nl ++ nl ++ askProductName.
Definition msgFarewell : string :=
  "Thank you for using the Chemical Product Search! Goodbye! Send 'hello' to start a new search.".
Definition msgWentWrong : string :=
  "Sorry, something went wrong. Please send 'hello' to start again.".
Definition searchAgainSuffix : string :=
  nl ++ nl ++ "Do you want to search again? Send 'yes' to start a new search.".

Definition quotationBody (i : Inquiry) (s : Supplier) (incomingMessage : string)
  : string :=
  "Quotation for " ++ orElse (productName i) "the product" ++ " from " ++
  interpolate (name s) ++ " (" ++ interpolate (number s) ++ "): " ++
  incomingMessage.

(** The supplier-response branch: the message carries [#inquiryId]. *)
Definition supplierResponse (w : World) (fromNumber incomingMessage inquiryId : string)
    (srv : Server) : Server * Outcome :=
  match inquiries srv !! inquiryId with
  | Some i =>
      let supplierNumber := removeFirst "whatsapp:" fromNumber in
      match List.find (λ s, bool_decide (number s = Some supplierNumber))
                      (suppliers i) with
      | Some supplier =>
          let m := {| msg_from := twilioNumber; msg_to := user i;
                      msg_body := quotationBody i supplier incomingMessage |} in
          if messages_create w m then (logSent m srv, Reply msgForwarded)
          else (srv, Rejected)
      | None => (srv, Reply msgNotParty)
      end
  | None => (srv, Reply msgInquiryNotFound)
  end.

Definition newSession : Session := {| state := START; data := emptyRequest |}.

Definition withState (st : State) (s : Session) : Session :=
  {| state := st; data := data s |}.

Definition withData (d : Request) (s : Session) : Session :=
  {| state := state s; data := d |}.

Definition setProductName (v : string) (d : Request) : Request :=
  {| product_name := Some v; category := category d; quantity := quantity d;
     pincode := pincode d; proximity := proximity d |}.
Definition setCategory (v : string) (d : Request) : Request :=
  {| product_name := product_name d; category := Some v; quantity := quantity d;
     pincode := pincode d; proximity := proximity d |}.
Definition setQuantity (v : Field Number) (d : Request) : Request :=
  {| product_name := product_name d; category := category d; quantity := v;
     pincode := pincode d; proximity := proximity d |}.
Definition setPincode (v : Field string) (d : Request) : Request :=
  {| product_name := product_name d; category := category d; quantity := quantity d;
     pincode := v; proximity := proximity d |}.
Definition setProximity (v : Proximity) (d : Request) : Request :=
  {| product_name := product_name d; category := category d; quantity := quantity d;
     pincode := pincode d; proximity := Some v |}.

(** What one pass through the [switch] leaves behind: the session object
    as mutated (the handler still holds it after a [delete]), whether the
    store entry was deleted, the server with the broker's writes, and the
    response ([None] when the search rejected). *)
Record Step := {
  stepSession : Session;
  stepDeleted : bool;
  stepServer : Server;
  stepResponse : option string;
}.

Definition say (s : Session) (srv : Server) (r : string) : Step :=
  {| stepSession := s; stepDeleted := false; stepServer := srv;
     stepResponse := Some r |}.

(** [responseMessage = await performSearchAndFormat(session.data, fromNumber);
    session.state = 'END'], the assignment being skipped when the call
    rejects. *)
Definition searchStep (w : World) (fromNumber : string) (s : Session)
    (srv : Server) : Step :=
  match performSearchAndFormat w (data s) fromNumber srv with
  | (srv', Some r) => say (withState END s) srv' r
  | (srv', None) =>
      {| stepSession := s; stepDeleted := false; stepServer := srv';
         stepResponse := None |}
  end.

Definition parseProximity (preference : string) : option Proximity :=
  if (preference =? "same")%string then Some same
  else if (preference =? "pan")%string then Some pan
  else None.

Definition dialogueStep (w : World) (fromNumber incomingMessage lowerMessage : string)
    (session : Session) (srv : Server) : Step :=
  match state session with
  | START => say (withState PRODUCT_NAME session) srv msgWelcome
  | PRODUCT_NAME =>
      let session :=
        if (lowerMessage =? "skip")%string then session
        else withData (setProductName incomingMessage (data session)) session in
      say (withState CATEGORY session) srv askCategory
  | CATEGORY =>
      let session :=
        if (lowerMessage =? "skip")%string then session
        else withData (setCategory incomingMessage (data session)) session in
      say (withState QUANTITY session) srv askQuantity
  | QUANTITY =>
      if (lowerMessage =? "skip")%string then
        say (withState PINCODE (withData (setQuantity Null (data session)) session))
            srv askPincode
      else
        let quantity := parseFloat incomingMessage in
        if negb (isNaN quantity) && geZero quantity then
          say (withState PINCODE
                 (withData (setQuantity (Value quantity) (data session)) session))
              srv askPincode
        else say session srv badQuantity
  | PINCODE =>
      if (lowerMessage =? "skip")%string then
        searchStep w fromNumber
          (withData (setPincode Null (data session)) session) srv
      else if isSixDigits incomingMessage then
        say (withState PROXIMITY
               (withData (setPincode (Value incomingMessage) (data session)) session))
            srv askProximity
      else say session srv badPincode
  | PROXIMITY =>
      match parseProximity lowerMessage with
      | Some preference =>
          searchStep w fromNumber
            (withData (setProximity preference (data session)) session) srv
      | None => say session srv badProximity
      end
  | END =>
      if (lowerMessage =? "yes")%string || (lowerMessage =? "y")%string then
        say {| state := START; data := emptyRequest |} srv msgRestart
      else
        {| stepSession := session; stepDeleted := true; stepServer := srv;
           stepResponse := Some msgFarewell |}
  | OTHER =>
      {| stepSession := session; stepDeleted := true; stepServer := srv;
         stepResponse := Some msgWentWrong |}
  end.

Definition putSession (fromNumber : string) (s : Session) (srv : Server) : Server :=
  {| sessions := <[fromNumber := s]> (sessions srv); inquiries := inquiries srv;
     outbox := outbox srv |}.

Definition deleteSession (fromNumber : string) (srv : Server) : Server :=
  {| sessions := delete fromNumber (sessions srv); inquiries := inquiries srv;
     outbox := outbox srv |}.

Definition isEND (st : State) : bool :=
  match st with END => true | _ => false end.

(** The end of the user-message branch. [session] is the object the
    store holds under [fromNumber]: its mutations are written back unless
    the entry was deleted, while the closing test for the search-again
    prompt reads the object itself. *)
Definition finish (fromNumber : string) (st : Step) : Server * Outcome :=
  let srv :=
    if stepDeleted st then deleteSession fromNumber (stepServer st)
    else putSession fromNumber (stepSession st) (stepServer st) in
  match stepResponse st with
  | Some responseMessage =>
      (srv, Reply (if isEND (state (stepSession st))
                   then responseMessage ++ searchAgainSuffix
                   else responseMessage))
  | None => (srv, Rejected)
  end.

(** The user-message branch. *)
Definition userMessage (w : World) (fromNumber incomingMessage : string)
    (srv : Server) : Server * Outcome :=
  let lowerMessage := toLowerCase incomingMessage in
  let session :=
    match sessions srv !! fromNumber with
    | Some s => if (lowerMessage =? "hello")%string then newSession else s
    | None => newSession
    end in
  if (lowerMessage =? "no")%string || (lowerMessage =? "stop")%string then
    (deleteSession fromNumber srv, Reply msgTerminated)
  else
    finish fromNumber
      (dialogueStep w fromNumber incomingMessage lowerMessage session srv).

(** [app.post('/webhook', ...)] on [req.body.From] and [req.body.Body]. *)
Definition webhook (w : World) (fromNumber body : string) (srv : Server)
  : Server * Outcome :=
  let incomingMessage := trim body in
  match inquiryIdMatch incomingMessage with
  | Some inquiryId => supplierResponse w fromNumber incomingMessage inquiryId srv
  | None => userMessage w fromNumber incomingMessage srv
  end.

(** A buyer's conversation: the handler run on each message in turn, each
    with the world it meets. *)
Definition converse (fromNumber : string) (turns : list (World * string))
    (srv : Server) : Server :=
  foldl (λ acc t, (webhook t.1 fromNumber t.2 acc).1) srv turns.

End Server.

(** ** Vocabulary of the statements *)

Section Vocabulary.
Context {Number : Type} `{!JSNumber Number}.





(** The characters of a message among which a correlation reference
    would start. *)
Fixpoint hasHash (s : string) : bool :=
  match s with
  | String c r => Ascii.eqb c "#" || hasHash r
  | EmptyString => false
  end.

(** A dialogue turn: a text that carries no correlation reference and is
    none of the words the handler looks for ahead of the [switch]
    ('no', 'stop', 'hello'). An opening turn may be 'hello'. *)
Definition isOpeningTurn (body : string) : bool :=
  let m := trim body in
  match inquiryIdMatch m with
  | Some _ => false
  | None => negb (toLowerCase m =? "no")%string &&
            negb (toLowerCase m =? "stop")%string
  end.

Definition isDialogueTurn (body : string) : bool :=
  isOpeningTurn body && negb (toLowerCase (trim body) =? "hello")%string.

Definition isSkip (body : string) : bool :=
  (toLowerCase (trim body) =? "skip")%string.

Definition validQuantity (body : string) : bool :=
  isSkip body ||
  (negb (isNaN (parseFloat (trim body))) && geZero (parseFloat (trim body))).

Definition validPincode (body : string) : bool := isSixDigits (trim body).

Definition validProximity (body : string) : bool :=
  match parseProximity (toLowerCase (trim body)) with
  | Some _ => true
  | None => false
  end.

(** The Request five answers describe. *)
Definition answered (p c q z x : string) : Request :=
  {| product_name := if isSkip p then None else Some (trim p);
     category := if isSkip c then None else Some (trim c);
     quantity := if isSkip q then Null else Value (parseFloat (trim q));
     pincode := Value (trim z);
     proximity := parseProximity (toLowerCase (trim x)) |}.

End Vocabulary.


(** ** Where the embedding is the code *)

(** The model's strings are sequences of 8-bit characters; its [trim]
    strips the six ASCII white-space characters and its [toLowerCase]
    folds 'A'..'Z'. JavaScript's [trim] also strips U+00A0, U+FEFF and the
    other Unicode space separators, and its [toLowerCase] also folds
    letters outside ASCII (U+212A KELVIN SIGN to 'k', for one). On a text
    made of ASCII characters only, the two agree. *)
Definition isAsciiChar (c : ascii) : bool := (nat_of_ascii c <? 128)%nat.

Fixpoint asciiOnly (s : string) : bool :=
  match s with
  | String c r => isAsciiChar c && asciiOnly r
  | EmptyString => true
  end.

(** [sessions] is a plain object: [sessions[fromNumber]] finds, for a
    sender called as one of the properties of [Object.prototype], the
    inherited value although no Session was ever stored, and the handler
    then never creates one. The model's store is a finite map, which
    holds what was put into it and nothing else. *)
Definition inheritedNames : list string :=
  ["constructor"; "__proto__"; "hasOwnProperty"; "isPrototypeOf";
   "propertyIsEnumerable"; "toLocaleString"; "toString"; "valueOf";
   "__defineGetter__"; "__defineSetter__"; "__lookupGetter__";
   "__lookupSetter__"].

Definition isInheritedName (fromNumber : string) : bool :=
  existsb (String.eqb fromNumber) inheritedNames.


(** ** A small catalogue, and worlds to run the server in *)

Definition acme : Candidate :=
  {| Product_Name := "Sodium Chloride"; PIN_Code := "390001";
     Seller_POC_Contact_Number := Some "+919800000001";
     Seller_Name := Some "Acme Salts" |}.

Definition bharat : Candidate :=
  {| Product_Name := "Sodium Hydroxide"; PIN_Code := "560001";
     Seller_POC_Contact_Number := Some "+919800000002";
     Seller_Name := Some "Bharat Alkali" |}.

Definition coastal : Candidate :=
  {| Product_Name := "Sodium Carbonate"; PIN_Code := "400001";
     Seller_POC_Contact_Number := Some "+919800000003";
     Seller_Name := Some "Coastal Soda" |}.

(** A catalogue entry with no contact number and a postal code that is
    not a number. *)
Definition unlisted : Candidate :=
  {| Product_Name := "Sodium Sulphate"; PIN_Code := "N/A";
     Seller_POC_Contact_Number := None;
     Seller_Name := Some "Unlisted Traders" |}.

(** Every collaborator answers; the index returns the catalogue. *)
Definition worldWith (catalogue : list Candidate) : @World Decimal :=
  {| embedder := λ _, Some [];
     index_query := λ _, Some catalogue;
     messages_create := λ _, true;
     Date_now := 1712000000000 |}.

(** The embedding model throws. *)
Definition embedderDown (catalogue : list Candidate) : @World Decimal :=
  {| embedder := λ _, None;
     index_query := λ _, Some catalogue;
     messages_create := λ _, true;
     Date_now := 1712000000000 |}.

(** The index query throws. *)
Definition indexDown : @World Decimal :=
  {| embedder := λ _, Some [];
     index_query := λ _, None;
     messages_create := λ _, true;
     Date_now := 1712000000000 |}.

Definition market : @World Decimal := worldWith [bharat; acme; coastal].

Definition buyer : string := "whatsapp:+919900000000".

(** The server as it starts. *)
Definition startup : @Server Decimal := initialServer.

Definition sodiumNearby : @Request Decimal :=
  {| product_name := Some "Sodium"; category := None; quantity := Null;
     pincode := Value "390013"; proximity := Some same |}.

Definition sodiumAnywhere : @Request Decimal :=
  {| product_name := Some "Sodium"; category := None; quantity := Null;
     pincode := Value "390013"; proximity := Some pan |}.

(** The buyer has answered up to the quantity, up to the pincode, and to
    the end. *)
Definition atPINCODE : @Server Decimal :=
  converse buyer
    [(market, "Hi"); (market, "Sodium"); (market, "skip"); (market, "500")]
    startup.

Definition atPROXIMITY : @Server Decimal :=
  converse buyer [(market, "390013")] atPINCODE.

Definition atEND : @Server Decimal :=
  converse buyer [(market, "pan")] atPROXIMITY.

Definition sodium500 (pin : Field string) (prox : option Proximity)
  : @Request Decimal :=
  {| product_name := Some "Sodium"; category := None;
     quantity := Value (DFinite false 500 0);
     pincode := pin; proximity := prox |}.

(** The inquiry the search at the end of that conversation records: the
    three suppliers, nearest postal code first. *)
Definition sodiumInquiry : Inquiry :=
  {| user := buyer; productName := Some "Sodium";
     suppliers := map toSupplier [acme; coastal; bharat] |}.

(** ** Vocabulary of the further properties *)

Section MoreVocabulary.
Context {Number : Type} `{!JSNumber Number}.

(** The same world with another transport. *)
Definition withTransport (t : Message → bool) (w : @World Number) : @World Number :=
  {| embedder := embedder w; index_query := index_query w;
     messages_create := t; Date_now := Date_now w |}.

(** The message [sendInquiryToSupplier] hands to the transport. *)
Definition inquiryMessage (d : @Request Number) (inquiryId supplierNumber : string)
  : Message :=
  {| msg_from := twilioNumber; msg_to := "whatsapp:" ++ supplierNumber;
     msg_body := inquiryBody (product_name d) (category d) (quantity d) inquiryId |}.

(** What a stored Session looks like at each dialogue position. *)
Definition quantityOK (q : Field Number) : Prop :=
  match q with
  | Value n => isNaN n = false ∧ geZero n = true
  | _ => True
  end.

Definition pincodeOK (p : Field string) : Prop :=
  match p with
  | Value pin => isSixDigits pin = true
  | _ => True
  end.

Definition stageOK (s : @Session Number) : Prop :=
  let d := data s in
  match state s with
  | START | PRODUCT_NAME => d = emptyRequest
  | CATEGORY =>
      category d = None ∧ quantity d = Undefined ∧ pincode d = Undefined ∧
      proximity d = None
  | QUANTITY =>
      quantity d = Undefined ∧ pincode d = Undefined ∧ proximity d = None
  | PINCODE =>
      quantity d ≠ Undefined ∧ (pincode d = Undefined ∨ pincode d = Null) ∧
      proximity d = None
  | PROXIMITY => quantity d ≠ Undefined ∧ ∃ pin, pincode d = Value pin
  | END =>
      quantity d ≠ Undefined ∧
      ((pincode d = Null ∧ proximity d = None) ∨
       (∃ pin x, pincode d = Value pin ∧ proximity d = Some x))
  | OTHER => False
  end.

Definition sessionOK (s : @Session Number) : Prop :=
  quantityOK (quantity (data s)) ∧ pincodeOK (pincode (data s)) ∧ stageOK s.


(** The Request of a buyer who skipped every question. *)
Definition allSkipped : @Request Number :=
  {| product_name := None; category := None; quantity := Null;
     pincode := Null; proximity := None |}.


End MoreVocabulary.

(** ** The ingestion script: [retryOperation] and [generateEmbeddings] *)

(** What one call of an asynchronous operation gives: the value its
    promise resolves to, or the message of the error it rejects with. *)
Inductive Attempt (A : Type) :=
  | Resolved (a : A)
  | Failed (message : string).
Global Arguments Resolved {A} a.
Global Arguments Failed {A} message.

(** How [retryOperation] ends. The loop falls through, and the function
    returns [undefined], only when [maxAttempts] is below 1. *)
Inductive Settled (A : Type) :=
  | Returns (a : A)
  | Throws (message : string)
  | ReturnsUndefined.
Global Arguments Returns {A} a.
Global Arguments Throws {A} message.
Global Arguments ReturnsUndefined {A}.

(** The outcome, with how many times the operation was called and the
    waits ([setTimeout], in milliseconds) in between. *)
Record Retried (A : Type) := {
  settled : Settled A;
  attempts : nat;
  delays : list nat;
}.
Global Arguments settled {A} r.
Global Arguments attempts {A} r.
Global Arguments delays {A} r.

Definition isRetryable (message : string) : bool :=
  negb (includes message "404") && negb (includes message "index not found").

(** The [for] loop of [retryOperation], from [attempt] on, [remaining]
    being the iterations left ([maxAttempts - attempt + 1]).
    [operation k] is what the [k]-th call of the operation gives. *)
Fixpoint retryLoop {A} (operation : nat → Attempt A) (maxAttempts baseDelayMs : nat)
    (remaining attempt : nat) : Retried A :=
  match remaining with
  | 0 => {| settled := ReturnsUndefined; attempts := 0; delays := [] |}
  | S remaining' =>
      match operation attempt with
      | Resolved result => {| settled := Returns result; attempts := 1; delays := [] |}
      | Failed message =>
          if (attempt =? maxAttempts)%nat || negb (isRetryable message) then
            {| settled := Throws message; attempts := 1; delays := [] |}
          else
            let delayMs := (baseDelayMs * 2 ^ (attempt - 1))%nat in
            let rest := retryLoop operation maxAttempts baseDelayMs remaining'
                          (S attempt) in
            {| settled := settled rest; attempts := S (attempts rest);
               delays := delayMs :: delays rest |}
      end
  end.

Definition retryOperation {A} (operation : nat → Attempt A)
    (maxAttempts baseDelayMs : nat) : Retried A :=
  retryLoop operation maxAttempts baseDelayMs maxAttempts 1.

(** The [j]-th call fails with an error that is retried. *)
Definition failsRetryably {A} (operation : nat → Attempt A) (j : nat) : Prop :=
  ∃ message, operation j = Failed message ∧ isRetryable message = true.

(** [waitForIndexReady]: polls [describeIndexStats] through
    [retryOperation]. [describe attempt k] is what the [k]-th call made
    during poll number [attempt] gives, [true] standing for truthy stats.
    The waits listed are those of the retries and, after a poll that
    threw, [delayMs]. *)
Definition notReadyMessage (indexName : string) (maxAttempts : nat) : string :=
  "Index " ++ indexName ++ " not ready after " ++ pretty maxAttempts ++ " attempts".

Fixpoint waitLoop (describe : nat → nat → Attempt bool) (indexName : string)
    (maxAttempts delayMs : nat) (remaining attempt : nat) : Retried bool :=
  match remaining with
  | 0 => {| settled := ReturnsUndefined; attempts := 0; delays := [] |}
  | S remaining' =>
      let poll := retryOperation (describe attempt) 3 1000 in
      let next (wait : list nat) :=
        let rest := waitLoop describe indexName maxAttempts delayMs remaining'
                      (S attempt) in
        {| settled := settled rest; attempts := S (attempts rest);
           delays := (delays poll ++ wait ++ delays rest)%list |} in
      match settled poll with
      | Returns true =>
          {| settled := Returns true; attempts := 1; delays := delays poll |}
      | Returns false | ReturnsUndefined => next []
      | Throws message =>
          if (attempt =? maxAttempts)%nat then
            {| settled := Throws (notReadyMessage indexName maxAttempts);
               attempts := 1; delays := delays poll |}
          else next [delayMs]
      end
  end.

Definition waitForIndexReady (describe : nat → nat → Attempt bool)
    (indexName : string) (maxAttempts delayMs : nat) : Retried bool :=
  waitLoop describe indexName maxAttempts delayMs maxAttempts 1.

(** Poll number [k] finds the index ready. *)
Definition pollReady (describe : nat → nat → Attempt bool) (k : nat) : Prop :=
  settled (retryOperation (describe k) 3 1000) = Returns true.

Definition BATCH_SIZE : nat := 96.

(** [l.slice(i, j)] for [i <= j]. *)
Definition slice {A} (i j : nat) (l : list A) : list A := take (j - i) (drop i l).

Section Embeddings.
Context {V : Type}.

Record Embedding := { values : V }.

(** The shapes of a response [generateEmbeddings] tells apart: an array,
    or an object that may have an [embeddings] or a [data] array. *)
Inductive Response :=
  | RespArray (l : list Embedding)
  | RespObject (embeddings data : option (list Embedding)).

Definition keepValues (l : list Embedding) : list Embedding :=
  map (λ embedding, {| values := values embedding |}) l.

Definition readEmbeddings (response : Response) : option (list Embedding) :=
  match response with
  | RespArray l => Some (keepValues l)
  | RespObject (Some l) _ => Some (keepValues l)
  | RespObject None (Some l) => Some (keepValues l)
  | RespObject None None => None
  end.

Definition unexpectedFormat : string := "Unexpected embeddings response format".

(** The batch loop of [generateEmbeddings]. [embed b batch k] is what the
    [k]-th call of [pc.inference.embed] for batch number [b] gives. The
    loop runs at most once per text, which [fuel] counts. *)
Fixpoint embedLoop (fuel : nat)
    (embed : nat → list string → nat → Attempt Response)
    (texts : list string) (i : nat) (embeddings : list Embedding)
  : Attempt (list Embedding) :=
  if (i <? length texts)%nat then
    match fuel with
    | 0 => Resolved embeddings
    | S fuel' =>
        let batch := slice i (i + BATCH_SIZE) texts in
        match settled (retryOperation (embed (i / BATCH_SIZE)%nat batch) 3 1000) with
        | Returns response =>
            match readEmbeddings response with
            | Some batchEmbeddings =>
                embedLoop fuel' embed texts (i + BATCH_SIZE)
                          (embeddings ++ batchEmbeddings)%list
            | None => Failed unexpectedFormat
            end
        | Throws message => Failed message
        | ReturnsUndefined => Failed unexpectedFormat
        end
    end
  else Resolved embeddings.

Definition inferenceMissing : string :=
  "Pinecone inference API is not available. Ensure you are using @pinecone-database/pinecone version >= 2.0.0.".

Definition cannotConnect : string :=
  "Cannot connect to Pinecone. Check your network or Pinecone status at https://status.pinecone.io/".

(** The [catch] of [generateEmbeddings]: every error is rethrown under
    one of two messages. *)
Definition rethrown (message : string) : string :=
  if includes message "ENOTFOUND" || includes message "PineconeConnectionError"
  then cannotConnect
  else "Failed to generate embeddings: " ++ message.

(** [inference] tells whether [pc.inference] is there. *)
Definition generateEmbeddings (inference : bool)
    (embed : nat → list string → nat → Attempt Response) (texts : list string)
  : Attempt (list Embedding) :=
  match (if inference then embedLoop (length texts) embed texts 0 []
         else Failed inferenceMissing) with
  | Resolved embeddings => Resolved embeddings
  | Failed message => Failed (rethrown message)
  end.

(** Batch number [b] of the loop, and what the loop gets for it: the
    response [retryOperation] returns read as a list of embeddings, or
    the message of the error thrown. *)
Definition batchOf (texts : list string) (b : nat) : list string :=
  slice (b * BATCH_SIZE) (b * BATCH_SIZE + BATCH_SIZE) texts.

Definition batchOutcome (embed : nat → list string → nat → Attempt Response)
    (texts : list string) (b : nat) : Attempt (list Embedding) :=
  match settled (retryOperation (embed b (batchOf texts b)) 3 1000) with
  | Returns response =>
      match readEmbeddings response with
      | Some batchEmbeddings => Resolved batchEmbeddings
      | None => Failed unexpectedFormat
      end
  | Throws message => Failed message
  | ReturnsUndefined => Failed unexpectedFormat
  end.

End Embeddings.
Global Arguments Embedding V : clear implicits.
Global Arguments Response V : clear implicits.

(** ** More of the catalogue, and an embedding service to run *)






(** The transport refuses every message to [acme]. *)
Definition acmeUnreachable : @World Decimal :=
  withTransport (λ m, negb (msg_to m =? "whatsapp:+919800000001")%string) market.

(** An operation that times out twice and then answers. *)
Definition thirdTimeLucky (k : nat) : Attempt string :=
  if (k <? 3)%nat then Failed "socket hang up" else Resolved "ok".

(** An operation that times out once and then reports a missing index. *)
Definition thenNotFound (k : nat) : Attempt string :=
  if (k <? 2)%nat then Failed "socket hang up" else Failed "HTTP 404: index not found".

(** An index that reports 'not found' on the first two polls and is
    ready on the third. *)
Definition readyOnThirdPoll (attempt k : nat) : Attempt bool :=
  if (attempt <? 3)%nat then Failed "HTTP 404: index not found" else Resolved true.

(** An index that never answers. *)
Definition neverReady (attempt k : nat) : Attempt bool := Failed "socket hang up".

(** A hundred texts: one full batch and a batch of four. *)
Definition hundredTexts : list string := replicate 100 "name: Sodium".

Definition lengthEmbedding (text : string) : Embedding nat :=
  {| values := String.length text |}.

(** A service that answers each batch on the second call with one
    embedding per text, the second batch under an [embeddings] key. *)
Definition steadyService (b : nat) (batch : list string) (k : nat)
  : Attempt (Response nat) :=
  if (k <? 2)%nat then Failed "socket hang up"
  else if (b =? 0)%nat then Resolved (RespArray (map lengthEmbedding batch))
  else Resolved (RespObject (Some (map lengthEmbedding batch)) None).

(** A service that loses its connection on the second batch. *)
Definition droppingService (b : nat) (batch : list string) (k : nat)
  : Attempt (Response nat) :=
  if (b =? 0)%nat then Resolved (RespArray (map lengthEmbedding batch))
  else Failed "getaddrinfo ENOTFOUND api.pinecone.io".
(** * Properties *)

(** ** Strings *)

Example trim_example : trim "  Sodium chloride " = "Sodium chloride".
Proof. reflexivity. Qed.

Example inquiryIdMatch_examples :
  inquiryIdMatch "quote for #1712 is 40" = Some "1712" ∧
  inquiryIdMatch "# 5, #x, then #77 and #8" = Some "77" ∧
  inquiryIdMatch "order no. 12" = None.
Proof. repeat split; reflexivity. Qed.

Example parseInt_examples :
  parseInt " 390013" = Some 390013%Z ∧ parseInt "39A" = Some 39%Z ∧
  parseInt "-7" = Some (-7)%Z ∧ parseInt "N/A" = None.
Proof. repeat split; reflexivity. Qed.

Example isSixDigits_examples :
  isSixDigits "390013" = true ∧ isSixDigits "39001" = false ∧
  isSixDigits "39001a" = false ∧ isSixDigits "3900130" = false.
Proof. repeat split; reflexivity. Qed.

Example removeFirst_example :
  removeFirst "whatsapp:" "whatsapp:+919800000001" = "+919800000001".
Proof. reflexivity. Qed.





Lemma startsWith_slice2 s p :
  (2 ≤ String.length p)%nat → startsWith s (slice0 2 p) = true →
  slice0 2 s = slice0 2 p.
Proof.
  destruct p as [|a [|b p]]; simpl; try lia. intros _.
  unfold startsWith, slice0. simpl.
  destruct s as [|c [|d s]]; simpl; try done.
  - by destruct (ascii_dec a c).
  - destruct (ascii_dec a c) as [->|]; [|done].
    destruct (ascii_dec b d) as [->|]; [|done].
    by destruct p, s.
Qed.

(** ** Sorting *)

Section SortByKey.
Context {A : Type} (compare : A → A → option Z) (key : A → Z) (P : A → Prop).
Hypothesis compare_key : ∀ a b, P a → P b → compare a b = Some (key a - key b)%Z.





Lemma sortInsert_perm x l : sortInsert compare x l ≡ₚ x :: l.
Proof.
  induction l as [|y l IH]; simpl; [done|].
  destruct (notAfter compare x y); [done|]. rewrite IH. apply Permutation_swap.
Qed.

Lemma Array_sort_perm l : Array_sort compare l ≡ₚ l.
Proof.
  induction l as [|x l IH]; simpl; [done|]. by rewrite sortInsert_perm, IH.
Qed.
End SortByKey.



(** ** Matching engine *)

Section Matching.
Context {Number : Type} `{!JSNumber Number}.
Implicit Types (w : @World Number) (d : @Request Number).

Lemma applyProximity_length d matches : (length (applyProximity d matches) ≤ 5)%nat.
Proof.
  unfold applyProximity.
  destruct (fieldTruthy (pincode d)), (proximity d) as [[]|];
    rewrite length_take; lia.
Qed.

Lemma performSearch_returns w d v :
  embedder w (queryText d) = Some v → is_Some (performSearch w d).
Proof.
  intros He. unfold performSearch. rewrite He.
  destruct (index_query w _); eauto.
Qed.

Lemma performSearch_index_failure w d v :
  embedder w (queryText d) = Some v → index_query w (buildQuery v d) = None →
  performSearch w d = Some [].
Proof. intros He Hq. unfold performSearch. by rewrite He, Hq. Qed.

(** C2. Whatever [performSearch] returns has at most 5 candidates; and
    when the proximity preference is 'same' and a (non-empty) requester
    pincode is given, the 'PIN Code' of every returned candidate starts
    with the first two characters of that pincode, so that both have the
    same first two characters once the pincode has two. *)
Theorem search_at_most_five_same_region w d ms :
  performSearch w d = Some ms →
  (length ms ≤ 5)%nat ∧
  ∀ pin, proximity d = Some same → pincode d = Value pin → pin ≠ EmptyString →
    Forall (λ m, startsWith (PIN_Code m) (slice0 2 pin) = true) ms ∧
    ((2 ≤ String.length pin)%nat →
     Forall (λ m, slice0 2 (PIN_Code m) = slice0 2 pin) ms).
Proof.
  unfold performSearch. intros Hs.
  destruct (embedder w (queryText d)) as [v|]; [|done].
  destruct (index_query w (buildQuery v d)) as [all|]; simplify_eq.
  - split; [apply applyProximity_length|].
    intros pin Hprox Hpin Hne.
    assert (Forall (λ m, startsWith (PIN_Code m) (slice0 2 pin) = true)
              (applyProximity d (filterByProductName d all))) as HF.
    { unfold applyProximity. rewrite Hpin, Hprox. simpl.
      destruct pin; [done|]. simpl truthy. cbv iota.
      apply Forall_take, Forall_forall. intros m Hm.
      apply list_elem_of_In, filter_In in Hm. tauto. }
    split; [done|]. intros Hlen.
    eapply Forall_impl; [exact HF|]. intros m. by apply startsWith_slice2.
  - split; [simpl; lia|]. intros. split; [constructor|]. constructor.
Qed.



End Matching.

(** ** The handler, branch by branch *)

Lemma toLowerChar_hash c : Ascii.eqb (toLowerChar c) "#" = Ascii.eqb c "#".
Proof. destruct c as [[] [] [] [] [] [] [] []]; reflexivity. Qed.

Lemma hasHash_toLowerCase s : hasHash (toLowerCase s) = hasHash s.
Proof. induction s as [|c r IH]; simpl; [done|]. by rewrite toLowerChar_hash, IH. Qed.

Lemma inquiryIdMatch_no_hash s : hasHash s = false → inquiryIdMatch s = None.
Proof.
  induction s as [|c r IH]; simpl; [done|]. intros Hh.
  apply orb_false_iff in Hh as [-> Hr]. auto.
Qed.

Lemma keyword_no_reference m k :
  toLowerCase m = k → hasHash k = false → inquiryIdMatch m = None.
Proof.
  intros <- Hk. apply inquiryIdMatch_no_hash. by rewrite <- hasHash_toLowerCase.
Qed.

Section Handler.
Context {Number : Type} `{!JSNumber Number}.
Implicit Types (w : @World Number) (srv : @Server Number) (s : @Session Number)
  (d : @Request Number).

Lemma putSession_same fromNumber s srv :
  sessions srv !! fromNumber = Some s → putSession fromNumber s srv = srv.
Proof. intros Hs. destruct srv. unfold putSession. simpl in *. by rewrite insert_id. Qed.

Lemma putSession_lookup fromNumber s srv :
  sessions (putSession fromNumber s srv) !! fromNumber = Some s.
Proof. simpl. apply lookup_insert_eq. Qed.

Lemma webhook_opening w fromNumber body srv :
  isOpeningTurn body = true → sessions srv !! fromNumber = None →
  webhook w fromNumber body srv
  = (putSession fromNumber (withState PRODUCT_NAME newSession) srv, Reply msgWelcome).
Proof.
  unfold isOpeningTurn, webhook, userMessage. intros Ho Hs.
  destruct (inquiryIdMatch (trim body)); [done|].
  apply andb_true_iff in Ho as [Hno Hstop].
  apply negb_true_iff in Hno, Hstop. rewrite Hno, Hstop, Hs. reflexivity.
Qed.

Lemma webhook_dialogue w fromNumber body srv s :
  isDialogueTurn body = true → sessions srv !! fromNumber = Some s →
  webhook w fromNumber body srv
  = finish fromNumber
      (dialogueStep w fromNumber (trim body) (toLowerCase (trim body)) s srv).
Proof.
  unfold isDialogueTurn, isOpeningTurn, webhook, userMessage. intros Hd Hs.
  destruct (inquiryIdMatch (trim body)); [done|].
  apply andb_true_iff in Hd as [Hd Hhello].
  apply andb_true_iff in Hd as [Hno Hstop].
  apply negb_true_iff in Hno, Hstop, Hhello.
  rewrite Hno, Hstop, Hs, Hhello. reflexivity.
Qed.

(** *** Broker and dispatcher *)

Lemma sendInquiry_frame w n pn cat q id srv :
  sessions (sendInquiryToSupplier w n pn cat q id srv) = sessions srv ∧
  inquiries (sendInquiryToSupplier w n pn cat q id srv) = inquiries srv.
Proof. unfold sendInquiryToSupplier. by destruct (messages_create w _). Qed.

Lemma dispatch_frame w pn cat q id numbers srv :
  sessions (foldl (λ acc n, sendInquiryToSupplier w n pn cat q id acc) srv numbers)
  = sessions srv ∧
  inquiries (foldl (λ acc n, sendInquiryToSupplier w n pn cat q id acc) srv numbers)
  = inquiries srv.
Proof.
  revert srv. induction numbers as [|n numbers IH]; intros srv; simpl; [done|].
  destruct (IH (sendInquiryToSupplier w n pn cat q id srv)) as [-> ->].
  apply sendInquiry_frame.
Qed.

Lemma performSearchAndFormat_sessions w d fromNumber srv :
  sessions (performSearchAndFormat w d fromNumber srv).1 = sessions srv.
Proof.
  unfold performSearchAndFormat.
  destruct (performSearch w d) as [[|m ms]|]; [done| |done].
  destruct (contactNumbers (m :: ms)) as [|n ns]; [done|].
  cbv zeta. unfold fst.
  by rewrite (proj1 (dispatch_frame _ _ _ _ _ _ _)).
Qed.

Lemma performSearchAndFormat_responds w d fromNumber srv :
  is_Some (performSearchAndFormat w d fromNumber srv).2 ↔ is_Some (performSearch w d).
Proof.
  unfold performSearchAndFormat.
  destruct (performSearch w d) as [[|m ms]|].
  - split; intros _; by eexists.
  - cbv zeta. destruct (contactNumbers (m :: ms)); split; intros _; by eexists.
  - simpl. split; by intros [? ?].
Qed.

Lemma performSearchAndFormat_rejects w d fromNumber srv :
  performSearch w d = None → performSearchAndFormat w d fromNumber srv = (srv, None).
Proof. unfold performSearchAndFormat. by intros ->. Qed.

(** *** The search steps *)

Lemma searchStep_completes w fromNumber s srv :
  embedder w (queryText (data s)) ≠ None →
  ∃ srv' r,
    performSearchAndFormat w (data s) fromNumber srv = (srv', Some r) ∧
    sessions srv' = sessions srv ∧
    finish fromNumber (searchStep w fromNumber s srv)
    = (putSession fromNumber (withState END s) srv', Reply (r ++ searchAgainSuffix)).
Proof.
  intros He.
  destruct (embedder w (queryText (data s))) as [v|] eqn:Hv; [|done].
  pose proof (performSearch_returns w (data s) v Hv) as Hr.
  apply (performSearchAndFormat_responds w (data s) fromNumber srv) in Hr.
  pose proof (performSearchAndFormat_sessions w (data s) fromNumber srv) as Hf.
  unfold searchStep.
  destruct (performSearchAndFormat w (data s) fromNumber srv) as [srv' [r|]];
    [|by destruct Hr].
  exists srv', r. by repeat split.
Qed.

Lemma searchStep_rejects w fromNumber s srv :
  embedder w (queryText (data s)) = None → state s ≠ END →
  finish fromNumber (searchStep w fromNumber s srv)
  = (putSession fromNumber s srv, Rejected).
Proof.
  intros He Hs. unfold searchStep.
  rewrite performSearchAndFormat_rejects by (unfold performSearch; by rewrite He).
  reflexivity.
Qed.

(** *** One dialogue turn in each state *)

Lemma toLowerCase_length m : String.length (toLowerCase m) = String.length m.
Proof. induction m; simpl; congruence. Qed.

Lemma sixDigits_not_skip m : isSixDigits m = true → (toLowerCase m =? "skip")%string = false.
Proof.
  unfold isSixDigits. intros Hs. apply andb_true_iff in Hs as [Hl _].
  apply Nat.eqb_eq in Hl. apply String.eqb_neq. intros Heq.
  apply (f_equal String.length) in Heq. rewrite toLowerCase_length, Hl in Heq.
  discriminate.
Qed.

Lemma turn_PRODUCT_NAME w fromNumber body srv s :
  isDialogueTurn body = true → sessions srv !! fromNumber = Some s →
  state s = PRODUCT_NAME →
  webhook w fromNumber body srv
  = (putSession fromNumber
       {| state := CATEGORY;
          data := if isSkip body then data s
                  else setProductName (trim body) (data s) |} srv,
     Reply askCategory).
Proof.
  intros Hd Hs Hst. rewrite (webhook_dialogue _ _ _ _ s) by done.
  unfold dialogueStep, isSkip. rewrite Hst.
  by destruct (toLowerCase (trim body) =? "skip")%string.
Qed.

Lemma turn_CATEGORY w fromNumber body srv s :
  isDialogueTurn body = true → sessions srv !! fromNumber = Some s →
  state s = CATEGORY →
  webhook w fromNumber body srv
  = (putSession fromNumber
       {| state := QUANTITY;
          data := if isSkip body then data s
                  else setCategory (trim body) (data s) |} srv,
     Reply askQuantity).
Proof.
  intros Hd Hs Hst. rewrite (webhook_dialogue _ _ _ _ s) by done.
  unfold dialogueStep, isSkip. rewrite Hst.
  by destruct (toLowerCase (trim body) =? "skip")%string.
Qed.

Lemma turn_QUANTITY w fromNumber body srv s :
  isDialogueTurn body = true → sessions srv !! fromNumber = Some s →
  state s = QUANTITY → validQuantity body = true →
  webhook w fromNumber body srv
  = (putSession fromNumber
       {| state := PINCODE;
          data := setQuantity (if isSkip body then Null
                               else Value (parseFloat (trim body))) (data s) |} srv,
     Reply askPincode).
Proof.
  intros Hd Hs Hst Hv. rewrite (webhook_dialogue _ _ _ _ s) by done.
  unfold dialogueStep, validQuantity, isSkip in *. rewrite Hst.
  destruct (toLowerCase (trim body) =? "skip")%string; [done|].
  simpl in Hv. by rewrite Hv.
Qed.

Lemma turn_QUANTITY_again w fromNumber body srv s :
  isDialogueTurn body = true → sessions srv !! fromNumber = Some s →
  state s = QUANTITY → validQuantity body = false →
  webhook w fromNumber body srv = (srv, Reply badQuantity).
Proof.
  intros Hd Hs Hst Hv. rewrite (webhook_dialogue _ _ _ _ s) by done.
  unfold dialogueStep, validQuantity, isSkip in *. rewrite Hst.
  destruct (toLowerCase (trim body) =? "skip")%string; [done|].
  simpl in Hv. rewrite Hv. unfold finish, say. simpl.
  by rewrite putSession_same, Hst.
Qed.

Lemma turn_PINCODE w fromNumber body srv s :
  isDialogueTurn body = true → sessions srv !! fromNumber = Some s →
  state s = PINCODE → validPincode body = true →
  webhook w fromNumber body srv
  = (putSession fromNumber
       {| state := PROXIMITY; data := setPincode (Value (trim body)) (data s) |} srv,
     Reply askProximity).
Proof.
  intros Hd Hs Hst Hv. rewrite (webhook_dialogue _ _ _ _ s) by done.
  unfold dialogueStep, validPincode in *. rewrite Hst.
  by rewrite sixDigits_not_skip, Hv.
Qed.

Lemma turn_PINCODE_again w fromNumber body srv s :
  isDialogueTurn body = true → sessions srv !! fromNumber = Some s →
  state s = PINCODE → isSkip body = false → validPincode body = false →
  webhook w fromNumber body srv = (srv, Reply badPincode).
Proof.
  intros Hd Hs Hst Hk Hv. rewrite (webhook_dialogue _ _ _ _ s) by done.
  unfold dialogueStep, validPincode, isSkip in *. rewrite Hst, Hk, Hv.
  unfold finish, say. simpl. by rewrite putSession_same, Hst.
Qed.

Lemma turn_PINCODE_skip w fromNumber body srv s :
  isDialogueTurn body = true → sessions srv !! fromNumber = Some s →
  state s = PINCODE → isSkip body = true →
  webhook w fromNumber body srv
  = finish fromNumber
      (searchStep w fromNumber (withData (setPincode Null (data s)) s) srv).
Proof.
  intros Hd Hs Hst Hk. rewrite (webhook_dialogue _ _ _ _ s) by done.
  unfold dialogueStep, isSkip in *. by rewrite Hst, Hk.
Qed.

Lemma turn_PROXIMITY w fromNumber body srv s preference :
  isDialogueTurn body = true → sessions srv !! fromNumber = Some s →
  state s = PROXIMITY →
  parseProximity (toLowerCase (trim body)) = Some preference →
  webhook w fromNumber body srv
  = finish fromNumber
      (searchStep w fromNumber (withData (setProximity preference (data s)) s) srv).
Proof.
  intros Hd Hs Hst Hp. rewrite (webhook_dialogue _ _ _ _ s) by done.
  unfold dialogueStep. by rewrite Hst, Hp.
Qed.

Lemma turn_PROXIMITY_again w fromNumber body srv s :
  isDialogueTurn body = true → sessions srv !! fromNumber = Some s →
  state s = PROXIMITY → validProximity body = false →
  webhook w fromNumber body srv = (srv, Reply badProximity).
Proof.
  intros Hd Hs Hst Hv. rewrite (webhook_dialogue _ _ _ _ s) by done.
  unfold dialogueStep, validProximity in *. rewrite Hst.
  destruct (parseProximity (toLowerCase (trim body))); [done|].
  unfold finish, say. simpl. by rewrite putSession_same, Hst.
Qed.

(** *** Whole conversations *)

Lemma converse_cons fromNumber t ts srv :
  converse fromNumber (t :: ts) srv
  = converse fromNumber ts (webhook t.1 fromNumber t.2 srv).1.
Proof. reflexivity. Qed.

Lemma converse_app fromNumber ts1 ts2 srv :
  converse fromNumber (ts1 ++ ts2) srv
  = converse fromNumber ts2 (converse fromNumber ts1 srv).
Proof. apply foldl_app. Qed.

Lemma converse_QUANTITY_again fromNumber ts srv s :
  sessions srv !! fromNumber = Some s → state s = QUANTITY →
  Forall (λ t : World * string,
            isDialogueTurn t.2 = true ∧ validQuantity t.2 = false) ts →
  converse fromNumber ts srv = srv.
Proof.
  intros Hs Hst. induction 1 as [|t ts [Hd Hv] _ IH]; [done|].
  rewrite converse_cons, (turn_QUANTITY_again _ _ _ _ s); done.
Qed.

Lemma converse_PINCODE_again fromNumber ts srv s :
  sessions srv !! fromNumber = Some s → state s = PINCODE →
  Forall (λ t : World * string,
            isDialogueTurn t.2 = true ∧ isSkip t.2 = false ∧
            validPincode t.2 = false) ts →
  converse fromNumber ts srv = srv.
Proof.
  intros Hs Hst. induction 1 as [|t ts (Hd & Hk & Hv) _ IH]; [done|].
  rewrite converse_cons, (turn_PINCODE_again _ _ _ _ s); done.
Qed.

Lemma converse_PROXIMITY_again fromNumber ts srv s :
  sessions srv !! fromNumber = Some s → state s = PROXIMITY →
  Forall (λ t : World * string,
            isDialogueTurn t.2 = true ∧ validProximity t.2 = false) ts →
  converse fromNumber ts srv = srv.
Proof.
  intros Hs Hst. induction 1 as [|t ts [Hd Hv] _ IH]; [done|].
  rewrite converse_cons, (turn_PROXIMITY_again _ _ _ _ s); done.
Qed.

(** C1. A conversation that starts with no session for the sender and
    goes through the steps in order (an opening message, then an answer
    to the product-name, category, quantity, pincode and proximity
    prompts, each of the last three possibly after rejected attempts that
    were re-prompted) and ends with 'same' or 'pan', leaves the sender's
    session in state END, once the closing search has completed (the
    embedding call returned), with a Request that holds exactly the
    answers given: product name and category as sent unless 'skip' (then
    absent), quantity the parsed number or null on 'skip', pincode the
    6-digit string, proximity the preference.
    Every turn is a dialogue turn: no correlation reference in it, and
    not one of the words 'no', 'stop', 'hello' (the opening may be
    'hello'). The messages are ASCII texts, on which [trim] and
    [toLowerCase] are JavaScript's, and the sender's address is not the
    name of a property the session object inherits. *)
Theorem dialogue_reaches_END fromNumber srv (o p c q z x : World * string)
    (again_q again_z again_x : list (World * string)) :
  isInheritedName fromNumber = false →
  sessions srv !! fromNumber = None →
  asciiOnly o.2 = true → isOpeningTurn o.2 = true →
  asciiOnly p.2 = true → isDialogueTurn p.2 = true →
  asciiOnly c.2 = true → isDialogueTurn c.2 = true →
  Forall (λ t, asciiOnly t.2 = true ∧ isDialogueTurn t.2 = true ∧
               validQuantity t.2 = false) again_q →
  asciiOnly q.2 = true → isDialogueTurn q.2 = true → validQuantity q.2 = true →
  Forall (λ t, asciiOnly t.2 = true ∧ isDialogueTurn t.2 = true ∧
               isSkip t.2 = false ∧ validPincode t.2 = false) again_z →
  asciiOnly z.2 = true → isDialogueTurn z.2 = true → validPincode z.2 = true →
  Forall (λ t, asciiOnly t.2 = true ∧ isDialogueTurn t.2 = true ∧
               validProximity t.2 = false) again_x →
  asciiOnly x.2 = true → isDialogueTurn x.2 = true → validProximity x.2 = true →
  embedder x.1 (queryText (answered p.2 c.2 q.2 z.2 x.2)) ≠ None →
  sessions (converse fromNumber
              ([o; p; c] ++ again_q ++ [q] ++ again_z ++ [z] ++ again_x ++ [x])
              srv) !! fromNumber
  = Some {| state := END; data := answered p.2 c.2 q.2 z.2 x.2 |}.
Proof.
  intros _ Hnone _ Ho _ Hp _ Hc Haq _ Hq Hqv Haz _ Hz Hzv Hax _ Hx Hxv He.
  apply (Forall_impl _ (λ t : World * string,
           isDialogueTurn t.2 = true ∧ validQuantity t.2 = false)) in Haq;
    [|by intros ? (_ & ? & ?)].
  apply (Forall_impl _ (λ t : World * string,
           isDialogueTurn t.2 = true ∧ isSkip t.2 = false ∧
           validPincode t.2 = false)) in Haz;
    [|by intros ? (_ & ? & ? & ?)].
  apply (Forall_impl _ (λ t : World * string,
           isDialogueTurn t.2 = true ∧ validProximity t.2 = false)) in Hax;
    [|by intros ? (_ & ? & ?)].
  simpl app.
  rewrite converse_cons, (webhook_opening o.1 fromNumber o.2 srv Ho Hnone).
  simpl fst.
  rewrite converse_cons.
  erewrite turn_PRODUCT_NAME; [|done|apply putSession_lookup|done].
  simpl fst. rewrite converse_cons.
  erewrite turn_CATEGORY; [|done|apply putSession_lookup|done].
  simpl fst. rewrite converse_app.
  erewrite (converse_QUANTITY_again _ again_q); [|apply putSession_lookup|done|done].
  rewrite converse_cons.
  erewrite turn_QUANTITY; [|done|apply putSession_lookup|done|done].
  simpl fst. rewrite converse_app.
  erewrite (converse_PINCODE_again _ again_z); [|apply putSession_lookup|done|done].
  rewrite converse_cons.
  erewrite turn_PINCODE; [|done|apply putSession_lookup|done|done].
  simpl fst. rewrite converse_app.
  erewrite (converse_PROXIMITY_again _ again_x); [|apply putSession_lookup|done|done].
  unfold converse. simpl foldl.
  unfold validProximity in Hxv.
  destruct (parseProximity (toLowerCase (trim x.2))) as [preference|] eqn:Hpref;
    [|done].
  erewrite turn_PROXIMITY; [|done|apply putSession_lookup|done|exact Hpref].
  match goal with
  | |- context [searchStep ?w ?f ?s ?sv] =>
      destruct (searchStep_completes w f s sv) as (srv' & r & _ & _ & ->)
  end.
  - simpl data. unfold answered in He. rewrite Hpref in He.
    unfold newSession, emptyRequest, withState in *. simpl in *.
    by destruct (isSkip p.2), (isSkip c.2), (isSkip q.2).
  - simpl fst. rewrite putSession_lookup. f_equal.
    unfold answered, withState, withData. simpl. rewrite Hpref.
    by destruct (isSkip p.2), (isSkip c.2), (isSkip q.2).
Qed.

(** *** Termination keywords and greetings *)

Lemma webhook_stop w fromNumber body srv :
  toLowerCase (trim body) = "no" ∨ toLowerCase (trim body) = "stop" →
  webhook w fromNumber body srv = (deleteSession fromNumber srv, Reply msgTerminated).
Proof.
  intros Hk. unfold webhook, userMessage.
  assert (inquiryIdMatch (trim body) = None) as ->
    by (destruct Hk as [Hk|Hk]; by apply (keyword_no_reference _ _ Hk)).
  by destruct Hk as [-> | ->].
Qed.

(** C4, amended. In every session state (and with no session at all) a
    message equal, whatever its case, to 'no' or 'stop' removes the
    sender's Session and is answered with the fixed termination message;
    and a message from a sender with no Session (as the sender is left by
    that) creates a fresh Session at the welcome prompt, whether it says
    'hello' or not, provided it is not 'no' or 'stop' again and carries no
    correlation reference. The second message is an ASCII text, on which
    [trim] and [toLowerCase] are JavaScript's, and the sender's address
    is not the name of a property the session object inherits. *)
Theorem stop_then_fresh_session w1 w2 fromNumber body1 body2 srv :
  isInheritedName fromNumber = false →
  toLowerCase (trim body1) = "no" ∨ toLowerCase (trim body1) = "stop" →
  asciiOnly body2 = true → isOpeningTurn body2 = true →
  webhook w1 fromNumber body1 srv
  = (deleteSession fromNumber srv, Reply msgTerminated) ∧
  sessions (deleteSession fromNumber srv) !! fromNumber = None ∧
  ∀ srv0, sessions srv0 !! fromNumber = None →
    webhook w2 fromNumber body2 srv0
    = (putSession fromNumber {| state := PRODUCT_NAME; data := emptyRequest |} srv0,
       Reply msgWelcome).
Proof.
  intros _ Hk _ Ho. split; [by apply webhook_stop|].
  split; [apply lookup_delete_eq|].
  intros srv0 Hs. by apply webhook_opening.
Qed.

(** *** Supplier replies *)

(** C10. Handling a message that matches the correlation pattern leaves
    the session store as it was, whatever the stores held and whichever
    way the reply goes (forwarded, inquiry not found, supplier not a
    party, or the forward failing). *)
Theorem correlation_message_keeps_sessions w fromNumber body srv :
  is_Some (inquiryIdMatch (trim body)) →
  sessions (webhook w fromNumber body srv).1 = sessions srv.
Proof.
  intros [inquiryId Hm]. unfold webhook, supplierResponse. rewrite Hm.
  destruct (inquiries srv !! inquiryId) as [i|]; [|done].
  destruct (find _ (suppliers i)); [|done].
  by destruct (messages_create w _).
Qed.

(** When the transport throws on the forward, so does the handler. *)
Lemma forward_failure_rejects w fromNumber body inquiryId srv i sup :
  inquiryIdMatch (trim body) = Some inquiryId →
  inquiries srv !! inquiryId = Some i →
  find (λ x : Supplier, bool_decide (number x = Some (removeFirst "whatsapp:" fromNumber)))
       (suppliers i) = Some sup →
  messages_create w {| msg_from := twilioNumber; msg_to := user i;
                       msg_body := quotationBody i sup (trim body) |} = false →
  webhook w fromNumber body srv = (srv, Rejected).
Proof.
  intros Hm Hi Hf Hsend. unfold webhook, supplierResponse.
  by rewrite Hm, Hi, Hf, Hsend.
Qed.

(** C5, amended. With an Inquiry stored under the id of the first
    correlation reference of a message ('#' and the whole run of digits
    after it): sent from the address of one of the contacted suppliers
    of that Inquiry, and the transport taking the forward, the message is
    answered with the delivered status and exactly one message goes out,
    from the service's number to the buyer who asked, which for an ASCII
    text is the quotation that quotes the text as it was sent; sent from
    any other address it is answered with the supplier-not-party status
    and nothing goes out; and when the id of the first reference is not in
    the inquiry store the answer is the not-found status, whatever else
    the message contains. In the three cases the handler replies and
    leaves the session and inquiry stores as they were. *)
Theorem reply_routing w fromNumber body inquiryId srv :
  inquiryIdMatch (trim body) = Some inquiryId →
  (∀ i, inquiries srv !! inquiryId = Some i →
     ((∃ sup, sup ∈ suppliers i ∧ number sup = Some (removeFirst "whatsapp:" fromNumber)) →
      (∀ m, msg_to m = user i → messages_create w m = true) →
      (webhook w fromNumber body srv).2 = Reply msgForwarded ∧
      sessions (webhook w fromNumber body srv).1 = sessions srv ∧
      inquiries (webhook w fromNumber body srv).1 = inquiries srv ∧
      ∃ m sup,
        outbox (webhook w fromNumber body srv).1 = (outbox srv ++ [m])%list ∧
        msg_from m = twilioNumber ∧ msg_to m = user i ∧
        sup ∈ suppliers i ∧
        number sup = Some (removeFirst "whatsapp:" fromNumber) ∧
        (asciiOnly body = true → msg_body m = quotationBody i sup (trim body))) ∧
     ((∀ sup, sup ∈ suppliers i → number sup ≠ Some (removeFirst "whatsapp:" fromNumber)) →
      webhook w fromNumber body srv = (srv, Reply msgNotParty))) ∧
  (inquiries srv !! inquiryId = None →
   webhook w fromNumber body srv = (srv, Reply msgInquiryNotFound)).
Proof.
  intros Hm. unfold webhook, supplierResponse. rewrite Hm. split.
  - intros i ->. split.
    + intros (s0 & Hin & Hnum) Hsend.
      destruct (find _ (suppliers i)) as [sup|] eqn:Hf.
      * apply find_some in Hf as [Hs Hd]. apply bool_decide_eq_true in Hd.
        rewrite Hsend by done. do 3 (split; [done|]).
        eexists _, sup. simpl.
        split; [reflexivity|]. split; [reflexivity|]. split; [reflexivity|].
        split; [by apply list_elem_of_In|]. split; [done|]. by intros _.
      * eapply find_none in Hf; [|by apply list_elem_of_In].
        by apply bool_decide_eq_false in Hf.
    + intros Hnone. destruct (find _ (suppliers i)) as [sup|] eqn:Hf; [|done].
      apply find_some in Hf as [Hs Hd]. apply bool_decide_eq_true in Hd.
      by apply list_elem_of_In, Hnone in Hs.
  - by intros ->.
Qed.

(** *** Recording an inquiry *)

(** C7, amended. An Inquiry record is written exactly when the search
    returns at least one candidate, contactable or not: with no candidate
    the stores are left as they were; with candidates the record goes in
    under the clock reading. When none of the candidates has a contact
    number the buyer is told that no suppliers with contact numbers were
    found, not the success message, and nothing is sent; otherwise the
    buyer is told how many suppliers the inquiry went to. *)
Theorem inquiry_recorded_iff_matched w d fromNumber srv ms :
  performSearch w d = Some ms →
  (ms = [] →
   performSearchAndFormat w d fromNumber srv = (srv, Some msgNoSuppliers)) ∧
  (ms ≠ [] →
   inquiries (performSearchAndFormat w d fromNumber srv).1
   = <[pretty (Date_now w) :=
         {| user := fromNumber; productName := product_name d;
            suppliers := map toSupplier ms |}]> (inquiries srv)) ∧
  (ms ≠ [] → contactNumbers ms = [] →
   (performSearchAndFormat w d fromNumber srv).2 = Some msgNoContacts ∧
   outbox (performSearchAndFormat w d fromNumber srv).1 = outbox srv) ∧
  (contactNumbers ms ≠ [] →
   (performSearchAndFormat w d fromNumber srv).2
   = Some (msgSent (pretty (Date_now w)) (length (contactNumbers ms)))).
Proof.
  intros Hs. unfold performSearchAndFormat. rewrite Hs.
  destruct ms as [|m ms]; [by repeat split|].
  cbv zeta. split; [done|]. split; [|split].
  - intros _. destruct (contactNumbers (m :: ms)); [done|]. unfold fst.
    by rewrite (proj2 (dispatch_frame _ _ _ _ _ _ _)).
  - by intros _ ->.
  - intros Hne. by destruct (contactNumbers (m :: ms)).
Qed.

(** *** The PINCODE and END steps *)

(** C6, amended. In state PINCODE, 'skip' sets the Request's pincode to
    null and the engine runs the search at once, without asking for the
    proximity preference: when the search completes the state is END and
    the reply is the search result followed by the search-again prompt.
    An exact 6-digit string is stored and the engine asks for the
    same-region or nationwide preference, moving to PROXIMITY. Any other
    dialogue turn (no correlation reference, not 'no', 'stop' or 'hello')
    is re-prompted and nothing changes; this for an ASCII text, on which
    [trim] and [toLowerCase] are JavaScript's. *)
Theorem pincode_step w fromNumber body srv s :
  sessions srv !! fromNumber = Some s → state s = PINCODE →
  isDialogueTurn body = true →
  (isSkip body = true →
   embedder w (queryText (setPincode Null (data s))) ≠ None →
   ∃ srv' r,
     performSearchAndFormat w (setPincode Null (data s)) fromNumber srv
     = (srv', Some r) ∧
     webhook w fromNumber body srv
     = (putSession fromNumber
          {| state := END; data := setPincode Null (data s) |} srv',
        Reply (r ++ searchAgainSuffix))) ∧
  (validPincode body = true →
   webhook w fromNumber body srv
   = (putSession fromNumber
        {| state := PROXIMITY; data := setPincode (Value (trim body)) (data s) |}
        srv,
      Reply askProximity)) ∧
  (asciiOnly body = true → isSkip body = false → validPincode body = false →
   webhook w fromNumber body srv = (srv, Reply badPincode)).
Proof.
  intros Hs Hst Hd. repeat split.
  - intros Hk He. rewrite (turn_PINCODE_skip _ _ _ _ s) by done.
    destruct (searchStep_completes w fromNumber
                (withData (setPincode Null (data s)) s) srv He)
      as (srv' & r & Hp & _ & ->).
    exists srv', r. by split.
  - intros Hv. by apply turn_PINCODE.
  - intros _ Hk Hv. by apply (turn_PINCODE_again _ _ _ _ s).
Qed.


(** *** Failures of the collaborators during the closing search *)

(** The index failing is caught: the search degrades to the empty list
    and the buyer is told that no suppliers were found. *)
Lemma index_failure_degrades w fromNumber body srv s preference v :
  sessions srv !! fromNumber = Some s → state s = PROXIMITY →
  isDialogueTurn body = true →
  parseProximity (toLowerCase (trim body)) = Some preference →
  embedder w (queryText (setProximity preference (data s))) = Some v →
  index_query w (buildQuery v (setProximity preference (data s))) = None →
  webhook w fromNumber body srv
  = (putSession fromNumber
       {| state := END; data := setProximity preference (data s) |} srv,
     Reply (msgNoSuppliers ++ searchAgainSuffix)).
Proof.
  intros Hs Hst Hd Hp He Hq.
  rewrite (turn_PROXIMITY _ _ _ _ s preference) by done.
  unfold searchStep, performSearchAndFormat. simpl data.
  by rewrite (performSearch_index_failure _ _ v).
Qed.

(** C8, what the code does where the claim fails. When the embedding
    function throws during the search that a valid PROXIMITY answer
    starts, nothing catches it: the handler's promise is rejected and no
    reply is sent, so the buyer gets no 'no suppliers found' message. The
    Session stays in the store in state PROXIMITY, the preference
    already written to its Request. *)
Theorem embedder_failure_rejects w fromNumber body srv s preference :
  sessions srv !! fromNumber = Some s → state s = PROXIMITY →
  isDialogueTurn body = true →
  parseProximity (toLowerCase (trim body)) = Some preference →
  embedder w (queryText (setProximity preference (data s))) = None →
  webhook w fromNumber body srv
  = (putSession fromNumber
       {| state := PROXIMITY; data := setProximity preference (data s) |} srv,
     Rejected).
Proof.
  intros Hs Hst Hd Hp He.
  rewrite (turn_PROXIMITY _ _ _ _ s preference) by done.
  rewrite searchStep_rejects; [by rewrite <- Hst|done|simpl; by rewrite Hst].
Qed.

End Handler.

(** * Further properties *)

(** ** Matching engine *)

Lemma List_filter_sublist {A} (f : A → bool) (l : list A) :
  List.filter f l `sublist_of` l.
Proof.
  induction l as [|x l IH]; simpl; [constructor|].
  destruct (f x); by constructor.
Qed.


Section MoreMatching.
Context {Number : Type} `{!JSNumber Number}.
Implicit Types (w : @World Number) (d : @Request Number).

Lemma filterByProductName_sublist d all :
  filterByProductName d all `sublist_of` all.
Proof.
  unfold filterByProductName. destruct (someTruthy (product_name d)); [|done].
  apply List_filter_sublist.
Qed.

Lemma performSearch_unfold w d v all :
  embedder w (queryText d) = Some v → index_query w (buildQuery v d) = Some all →
  performSearch w d = Some (applyProximity d (filterByProductName d all)).
Proof. intros He Hq. unfold performSearch. by rewrite He, Hq. Qed.

Lemma applyProximity_submseteq d l : applyProximity d l ⊆+ l.
Proof.
  unfold applyProximity.
  destruct (fieldTruthy (pincode d)) as [pin|], (proximity d) as [[]|];
    try apply sublist_submseteq, sublist_take.
  - apply sublist_submseteq. etrans; [apply sublist_take|].
    apply List_filter_sublist.
  - etrans; [apply sublist_submseteq, sublist_take|].
    apply Permutation_submseteq, Array_sort_perm.
Qed.

(** X1. The search never invents or repeats a candidate: what it returns
    is taken from what the index answered, each match at most once; and
    unless the nationwide sort applies the index order is kept. *)
Theorem search_returns_index_matches w d v all ms :
  embedder w (queryText d) = Some v →
  index_query w (buildQuery v d) = Some all →
  performSearch w d = Some ms →
  ms ⊆+ all ∧ (proximity d ≠ Some pan → ms `sublist_of` all).
Proof.
  intros He Hq. rewrite (performSearch_unfold _ _ _ _ He Hq). intros [= <-].
  pose proof (filterByProductName_sublist d all) as Hf. split.
  - etrans; [apply applyProximity_submseteq|by apply sublist_submseteq].
  - intros Hpan. unfold applyProximity.
    destruct (fieldTruthy (pincode d)) as [pin|], (proximity d) as [[]|];
      try done; (etrans; [|exact Hf]); try apply sublist_take.
    etrans; [apply sublist_take|]. apply List_filter_sublist.
Qed.

(** X2. When the buyer gave a product name, the catalogue name of every
    returned candidate contains it, letter case aside; the product name
    and the catalogue names the index returns being ASCII texts, on which
    [toLowerCase] is JavaScript's. *)
Theorem search_matches_product_name w d p ms :
  product_name d = Some p → p ≠ EmptyString → asciiOnly p = true →
  (∀ v all, embedder w (queryText d) = Some v →
            index_query w (buildQuery v d) = Some all →
            Forall (λ m, asciiOnly (Product_Name m) = true) all) →
  performSearch w d = Some ms →
  Forall (λ m, includes (toLowerCase (Product_Name m)) (toLowerCase p) = true) ms.
Proof.
  intros Hp Hne _ _. unfold performSearch.
  destruct (embedder w (queryText d)) as [v|]; [|done].
  destruct (index_query w (buildQuery v d)) as [all|]; intros [= <-];
    [|constructor].
  apply Forall_forall. intros m Hm.
  eapply elem_of_submseteq in Hm; [|apply applyProximity_submseteq].
  revert Hm. unfold filterByProductName. rewrite Hp. simpl.
  destruct p; [done|]. simpl. intros Hm.
  apply list_elem_of_In, filter_In in Hm. tauto.
Qed.



End MoreMatching.

(** ** Stores and outbox across one handler invocation *)

Section MoreHandler.
Context {Number : Type} `{!JSNumber Number}.
Implicit Types (w : @World Number) (srv : @Server Number) (s : @Session Number)
  (d : @Request Number).

Lemma dispatch_outbox w d id numbers srv :
  outbox (foldl (λ acc n, sendInquiryToSupplier w n (product_name d) (category d)
                            (quantity d) id acc) srv numbers)
  = (outbox srv ++
     List.filter (messages_create w) (map (inquiryMessage d id) numbers))%list.
Proof.
  revert srv. induction numbers as [|n numbers IH]; intros srv; simpl.
  - by rewrite app_nil_r.
  - rewrite IH. unfold sendInquiryToSupplier, inquiryMessage.
    destruct (messages_create w _); simpl; [|done].
    by rewrite <- app_assoc.
Qed.

(** X5. The dispatcher sends one message per matched supplier that has a
    contact number, in the order of the matches, each to
    [whatsapp:<number>] with the inquiry text; a send the transport
    refuses is dropped without stopping the others. *)
Theorem dispatch_one_message_per_contact w d fromNumber srv ms :
  performSearch w d = Some ms →
  outbox (performSearchAndFormat w d fromNumber srv).1
  = (outbox srv ++
     List.filter (messages_create w)
       (map (inquiryMessage d (pretty (Date_now w))) (contactNumbers ms)))%list.
Proof.
  intros Hs. unfold performSearchAndFormat. rewrite Hs.
  destruct ms as [|m ms]; [simpl; by rewrite app_nil_r|].
  cbv zeta. destruct (contactNumbers (m :: ms)) as [|n ns] eqn:Hc.
  - simpl. by rewrite app_nil_r.
  - unfold fst. by rewrite dispatch_outbox.
Qed.

(** X6. What the buyer is told, and the inquiry that is recorded, do not
    depend on whether the transport took the messages to the suppliers. *)
Theorem summary_ignores_delivery w t d fromNumber srv :
  (performSearchAndFormat (withTransport t w) d fromNumber srv).2
  = (performSearchAndFormat w d fromNumber srv).2 ∧
  inquiries (performSearchAndFormat (withTransport t w) d fromNumber srv).1
  = inquiries (performSearchAndFormat w d fromNumber srv).1.
Proof.
  unfold performSearchAndFormat.
  change (performSearch (withTransport t w) d) with (performSearch w d).
  destruct (performSearch w d) as [[|m ms]|]; [done| |done].
  cbv zeta. destruct (contactNumbers (m :: ms)) as [|n ns]; [done|].
  unfold fst, snd. split; [done|].
  by rewrite !(proj2 (dispatch_frame _ _ _ _ _ _ _)).
Qed.

Lemma supplierResponse_frame w fromNumber incomingMessage inquiryId srv :
  sessions (supplierResponse w fromNumber incomingMessage inquiryId srv).1
  = sessions srv ∧
  inquiries (supplierResponse w fromNumber incomingMessage inquiryId srv).1
  = inquiries srv.
Proof.
  unfold supplierResponse.
  destruct (inquiries srv !! inquiryId) as [i|]; [|done].
  destruct (find _ (suppliers i)); [|done].
  by destruct (messages_create w _).
Qed.

Lemma searchStep_server w fromNumber s srv :
  stepServer (searchStep w fromNumber s srv)
  = (performSearchAndFormat w (data s) fromNumber srv).1 ∧
  stepDeleted (searchStep w fromNumber s srv) = false.
Proof.
  unfold searchStep.
  by destruct (performSearchAndFormat w (data s) fromNumber srv) as [srv' [r|]].
Qed.

(** The broker's side of a dialogue step: nothing, or one search. *)
Lemma dialogueStep_server w fromNumber m low s srv :
  stepServer (dialogueStep w fromNumber m low s srv) = srv ∨
  ∃ d, stepServer (dialogueStep w fromNumber m low s srv)
       = (performSearchAndFormat w d fromNumber srv).1.
Proof.
  unfold dialogueStep.
  destruct (state s); simpl; auto.
  - destruct (low =? "skip")%string; simpl; auto.
    destruct (negb _ && _); simpl; auto.
  - destruct (low =? "skip")%string.
    + right. eexists. apply searchStep_server.
    + destruct (isSixDigits m); simpl; auto.
  - destruct (parseProximity low); simpl; auto.
    right. eexists. apply searchStep_server.
  - destruct ((low =? "yes")%string || (low =? "y")%string); simpl; auto.
Qed.

Lemma finish_server fromNumber (st : @Step Number) :
  inquiries (finish fromNumber st).1 = inquiries (stepServer st) ∧
  outbox (finish fromNumber st).1 = outbox (stepServer st) ∧
  ∀ other, other ≠ fromNumber →
    sessions (finish fromNumber st).1 !! other = sessions (stepServer st) !! other.
Proof.
  unfold finish.
  destruct (stepDeleted st), (stepResponse st); simpl; repeat split; try done;
    intros other Hne; by rewrite ?lookup_delete_ne, ?lookup_insert_ne.
Qed.


Lemma performSearchAndFormat_inquiries w d fromNumber srv :
  inquiries (performSearchAndFormat w d fromNumber srv).1 = inquiries srv ∨
  ∃ i, inquiries (performSearchAndFormat w d fromNumber srv).1
       = <[pretty (Date_now w) := i]> (inquiries srv).
Proof.
  unfold performSearchAndFormat.
  destruct (performSearch w d) as [[|m ms]|]; auto.
  right. eexists. cbv zeta.
  destruct (contactNumbers (m :: ms)); [done|]. unfold fst.
  by rewrite (proj2 (dispatch_frame _ _ _ _ _ _ _)).
Qed.

Lemma webhook_inquiries w fromNumber body srv :
  inquiries (webhook w fromNumber body srv).1 = inquiries srv ∨
  (inquiryIdMatch (trim body) = None ∧
   ∃ i, inquiries (webhook w fromNumber body srv).1
        = <[pretty (Date_now w) := i]> (inquiries srv)).
Proof.
  unfold webhook.
  destruct (inquiryIdMatch (trim body)) as [inquiryId|].
  { left. apply supplierResponse_frame. }
  unfold userMessage.
  destruct ((_ =? "no")%string || (_ =? "stop")%string); [by left|].
  rewrite (proj1 (finish_server _ _)).
  match goal with
  | |- context [dialogueStep ?w ?f ?m ?l ?s ?sv] =>
      destruct (dialogueStep_server w f m l s sv) as [-> | [d ->]]
  end; [by left|].
  destruct (performSearchAndFormat_inquiries w d fromNumber srv) as [->|[i ->]];
    [by left|right; eauto].
Qed.

(** X8. No handler invocation removes an id from the inquiry store: the
    only id it can write is the clock reading of that invocation (a
    record already stored under that id is replaced), and a message that
    carries a correlation reference (a supplier's reply) leaves the whole
    store as it was. *)
Theorem webhook_keeps_inquiries w fromNumber body srv :
  (∀ id, is_Some (inquiries srv !! id) →
         is_Some (inquiries (webhook w fromNumber body srv).1 !! id)) ∧
  (∀ id, id ≠ pretty (Date_now w) →
         inquiries (webhook w fromNumber body srv).1 !! id = inquiries srv !! id) ∧
  (is_Some (inquiryIdMatch (trim body)) →
   inquiries (webhook w fromNumber body srv).1 = inquiries srv).
Proof.
  destruct (webhook_inquiries w fromNumber body srv) as [->|[Hm [i ->]]].
  - by repeat split.
  - repeat split.
    + intros id Hid. rewrite lookup_insert. by case_decide.
    + intros id Hne. by rewrite lookup_insert_ne.
    + rewrite Hm. by intros [? ?].
Qed.

(** ** Greetings and restarts *)

(** X9. 'hello', in any letter case, restarts the dialogue from any
    state: whatever Session the sender had, or none, the sender is left
    with an empty Request at the product-name prompt and is answered with
    the welcome text. *)
Theorem hello_restarts w fromNumber body srv :
  toLowerCase (trim body) = "hello" →
  webhook w fromNumber body srv
  = (putSession fromNumber {| state := PRODUCT_NAME; data := emptyRequest |} srv,
     Reply msgWelcome).
Proof.
  intros Hk. unfold webhook, userMessage.
  rewrite (keyword_no_reference _ _ Hk eq_refl), Hk. simpl.
  by destruct (sessions srv !! fromNumber).
Qed.

(** X10. After 'yes' in state END the Session is in state START, not at
    the product-name prompt it has just been sent: whatever the buyer
    sends next (an ASCII text, on which [trim] and [toLowerCase] are
    JavaScript's, short of 'no', 'stop' or a correlation reference) is
    answered with the welcome text and is not kept as the product name. *)
Theorem yes_then_answer_is_dropped w1 w2 fromNumber body1 body2 srv s :
  sessions srv !! fromNumber = Some s → state s = END →
  toLowerCase (trim body1) = "yes" ∨ toLowerCase (trim body1) = "y" →
  asciiOnly body2 = true → isOpeningTurn body2 = true →
  webhook w1 fromNumber body1 srv
  = (putSession fromNumber {| state := START; data := emptyRequest |} srv,
     Reply msgRestart) ∧
  webhook w2 fromNumber body2
    (putSession fromNumber {| state := START; data := emptyRequest |} srv)
  = (putSession fromNumber {| state := PRODUCT_NAME; data := emptyRequest |}
       (putSession fromNumber {| state := START; data := emptyRequest |} srv),
     Reply msgWelcome).
Proof.
  intros Hs Hst Hyes _ Ho. split.
  - unfold webhook, userMessage.
    assert (inquiryIdMatch (trim body1) = None) as ->
      by (destruct Hyes as [Hk|Hk]; by apply (keyword_no_reference _ _ Hk)).
    rewrite Hs. destruct Hyes as [-> | ->]; simpl;
      unfold dialogueStep; by rewrite Hst.
  - unfold isOpeningTurn in Ho. unfold webhook, userMessage.
    destruct (inquiryIdMatch (trim body2)); [done|].
    apply andb_true_iff in Ho as [Hno Hstop].
    apply negb_true_iff in Hno, Hstop. rewrite Hno, Hstop.
    rewrite putSession_lookup. simpl.
    by destruct (toLowerCase (trim body2) =? "hello")%string.
Qed.

(** ** The Sessions the store can hold *)

Lemma newSession_step_OK :
  sessionOK (@withState Number PRODUCT_NAME newSession).
Proof. by repeat split. Qed.





End MoreHandler.

(** ** Correlation ids *)

Lemma pretty_N_char_digit x : isDigit (pretty_N_char x) = true.
Proof. unfold pretty_N_char. by repeat case_match. Qed.

Lemma pretty_N_go_digits x s :
  allDigits s = true → allDigits (pretty_N_go x s) = true.
Proof.
  revert s. induction (N.lt_wf_0 x) as [x _ IH]; intros s Hs.
  destruct (decide (x = 0)%N) as [->|Hx]; [by rewrite pretty_N_go_0|].
  rewrite pretty_N_go_step by lia. apply IH.
  - apply N.div_lt; lia.
  - simpl. by rewrite pretty_N_char_digit.
Qed.

Lemma pretty_N_go_nonempty x s :
  s ≠ EmptyString → pretty_N_go x s ≠ EmptyString.
Proof.
  revert s. induction (N.lt_wf_0 x) as [x _ IH]; intros s Hs.
  destruct (decide (x = 0)%N) as [->|Hx]; [by rewrite pretty_N_go_0|].
  rewrite pretty_N_go_step by lia. apply IH; [apply N.div_lt; lia|done].
Qed.

(** The clock reading prints as a non-empty run of digits. *)
Lemma pretty_N_digits (n : N) :
  allDigits (pretty n) = true ∧ pretty n ≠ EmptyString.
Proof.
  unfold pretty, pretty_N. case_decide as Hn; [done|].
  rewrite pretty_N_go_step by lia. split.
  - apply pretty_N_go_digits. simpl. by rewrite pretty_N_char_digit.
  - by apply pretty_N_go_nonempty.
Qed.

Lemma takeDigits_app id c rest :
  allDigits id = true → isDigit c = false →
  takeDigits (id ++ String c rest) = id.
Proof.
  intros Hid Hc. induction id as [|a id IH]; simpl in *.
  - by rewrite Hc.
  - apply andb_true_iff in Hid as [-> Hid]. by rewrite IH.
Qed.

Lemma inquiryIdMatch_prompt id rest :
  allDigits id = true → id ≠ EmptyString →
  inquiryIdMatch ("Please provide your quotation for inquiry #" ++ id ++ ":" ++ rest)
  = Some id.
Proof.
  intros Hd Hne.
  change (inquiryIdMatch (String "#" (id ++ String ":" rest)) = Some id).
  simpl. rewrite (takeDigits_app id ":" rest Hd eq_refl). by destruct id.
Qed.





Section Correlation.
Context {Number : Type} `{!JSNumber Number}.
Implicit Types (w : @World Number) (srv : @Server Number) (d : @Request Number).

(** X13. The id printed into the supplier prompt is the id the handler
    reads back from it: whatever the product name, category and quantity
    say, the first correlation reference in the text of an inquiry is the
    clock reading it was recorded under. *)
Theorem inquiry_id_round_trip d (now : N) supplierNumber :
  inquiryIdMatch (msg_body (inquiryMessage d (pretty now) supplierNumber))
  = Some (pretty now).
Proof.
  destruct (pretty_N_digits now) as [Hd Hne].
  unfold inquiryMessage, inquiryBody. simpl msg_body.
  by apply inquiryIdMatch_prompt.
Qed.

Lemma performSearchAndFormat_records w d fromNumber srv m ms :
  performSearch w d = Some (m :: ms) →
  inquiries (performSearchAndFormat w d fromNumber srv).1
  = <[pretty (Date_now w) :=
        {| user := fromNumber; productName := product_name d;
           suppliers := map toSupplier (m :: ms) |}]> (inquiries srv).
Proof.
  intros Hs. unfold performSearchAndFormat. rewrite Hs. cbv zeta.
  destruct (contactNumbers (m :: ms)); [done|]. unfold fst.
  by rewrite (proj2 (dispatch_frame _ _ _ _ _ _ _)).
Qed.


End Correlation.

(** ** Skipping every question *)

Section SkipEverything.
Context {Number : Type} `{!JSNumber Number}.
Implicit Types (w : @World Number) (srv : @Server Number).

Lemma skip_is_dialogue body : isSkip body = true → isDialogueTurn body = true.
Proof.
  unfold isSkip, isDialogueTurn, isOpeningTurn. intros Hk.
  apply String.eqb_eq in Hk.
  by rewrite (keyword_no_reference _ _ Hk eq_refl), Hk.
Qed.

Lemma skip_is_validQuantity body : isSkip body = true → validQuantity body = true.
Proof. unfold validQuantity. by intros ->. Qed.

(** X15. A buyer with no Session (the address not the name of a property
    the session object inherits, the opening message an ASCII text) who
    answers 'skip' to all four questions gets the default search: the query text is the fallback
    term 'chemicals', no metadata filter is sent, and the first five
    matches are taken in the order the index returned them. The session
    ends in END, and when there is a match the recorded inquiry lists
    exactly those suppliers. *)
Theorem skip_everything fromNumber srv (o p c q z : @World Number * string) v all :
  isInheritedName fromNumber = false →
  sessions srv !! fromNumber = None →
  asciiOnly o.2 = true → isOpeningTurn o.2 = true →
  isSkip p.2 = true → isSkip c.2 = true → isSkip q.2 = true → isSkip z.2 = true →
  embedder z.1 "chemicals" = Some v →
  index_query z.1 {| vector := v; topK := 1000; includeMetadata := true;
                     filter := None |} = Some all →
  performSearch z.1 allSkipped = Some (take 5 all) ∧
  sessions (converse fromNumber [o; p; c; q; z] srv) !! fromNumber
  = Some {| state := END; data := allSkipped |} ∧
  (all ≠ [] →
   inquiries (converse fromNumber [o; p; c; q; z] srv) !! pretty (Date_now z.1)
   = Some {| user := fromNumber; productName := None;
             suppliers := map toSupplier (take 5 all) |}).
Proof.
  intros _ Hnone _ Ho Hp Hc Hq Hz He Hidx.
  assert (performSearch z.1 allSkipped = Some (take 5 all)) as Hsearch.
  { by rewrite (performSearch_unfold z.1 allSkipped v all He Hidx). }
  split; [done|].
  rewrite converse_cons, (webhook_opening o.1 fromNumber o.2 srv Ho Hnone).
  simpl fst. rewrite converse_cons.
  erewrite turn_PRODUCT_NAME;
    [|by apply skip_is_dialogue|apply putSession_lookup|done].
  simpl fst. rewrite converse_cons.
  erewrite turn_CATEGORY;
    [|by apply skip_is_dialogue|apply putSession_lookup|done].
  simpl fst. rewrite converse_cons.
  erewrite turn_QUANTITY;
    [|by apply skip_is_dialogue|apply putSession_lookup|done
     |by apply skip_is_validQuantity].
  simpl fst. rewrite converse_cons.
  erewrite turn_PINCODE_skip;
    [|by apply skip_is_dialogue|apply putSession_lookup|done|done].
  rewrite Hp, Hc, Hq. unfold converse. simpl foldl.
  match goal with
  | |- context [searchStep ?w0 ?f ?s0 ?sv] =>
      set (srv4 := sv);
      change (searchStep w0 f s0 sv)
        with (searchStep z.1 fromNumber {| state := PINCODE; data := allSkipped |} srv4)
  end.
  pose proof (performSearchAndFormat_sessions z.1 allSkipped fromNumber srv4) as Hses.
  assert (is_Some (performSearchAndFormat z.1 allSkipped fromNumber srv4).2) as [r Hr]
    by (apply performSearchAndFormat_responds; by rewrite Hsearch).
  unfold searchStep. simpl data.
  change (setPincode Null (setQuantity Null (@emptyRequest Number)))
    with (@allSkipped Number).
  destruct (performSearchAndFormat z.1 allSkipped fromNumber srv4) as [srv5 r5] eqn:Hpsaf.
  simpl in Hr. subst r5. split.
  - unfold finish. simpl. apply lookup_insert_eq.
  - intros Hall. unfold finish. simpl.
    assert (inquiries srv5
            = inquiries (performSearchAndFormat z.1 allSkipped fromNumber srv4).1)
      as -> by by rewrite Hpsaf.
    destruct all as [|m all]; [done|].
    rewrite (performSearchAndFormat_records z.1 allSkipped fromNumber srv4 m
               (take 4 all)) by done.
    apply lookup_insert_eq.
Qed.

End SkipEverything.

(** ** Ties in the nationwide ranking *)

Section StableSort.
Context {A : Type} (compare : A → A → option Z) (key : A → Z) (P : A → Prop).
Context (f : A → bool) (k : Z).
Hypothesis compare_key : ∀ a b, P a → P b → compare a b = Some (key a - key b)%Z.
Hypothesis f_key : ∀ a, P a → f a = (key a =? k)%Z.


End StableSort.


Section Ties.
Context {Number : Type} `{!JSNumber Number}.
Implicit Types (w : @World Number) (d : @Request Number).


End Ties.

(** ** The correlation pattern *)

Lemma takeDigits_allDigits s : allDigits (takeDigits s) = true.
Proof.
  induction s as [|c r IH]; simpl; [done|].
  destruct (isDigit c) eqn:Hc; simpl; [by rewrite Hc|done].
Qed.

Lemma takeDigits_split s :
  ∃ post, s = takeDigits s ++ post ∧ takeDigits post = EmptyString.
Proof.
  induction s as [|c r (post & Hr & Hp)]; [by exists EmptyString|].
  simpl. destruct (isDigit c) eqn:Hc.
  - exists post. split; [|done].
    change (String c r = String c (takeDigits r ++ post)). by rewrite <- Hr.
  - exists (String c r). split; [done|]. simpl. by rewrite Hc.
Qed.

Lemma append_nil_l (x : string) : EmptyString ++ x = x.
Proof. reflexivity. Qed.

Lemma append_cons c (a x : string) : String c a ++ x = String c (a ++ x).
Proof. reflexivity. Qed.

Lemma takeDigits_app_hash pre x :
  takeDigits (pre ++ String "#" x) = takeDigits pre.
Proof.
  induction pre as [|c pre IH]; [done|].
  rewrite append_cons. simpl. by rewrite IH.
Qed.

Lemma inquiryIdMatch_cons c r :
  inquiryIdMatch (String c r)
  = if Ascii.eqb c "#" then
      match takeDigits r with
      | EmptyString => inquiryIdMatch r
      | ds => Some ds
      end
    else inquiryIdMatch r.
Proof. reflexivity. Qed.

(** X17. Which id a message is routed by: when the handler finds a
    correlation reference, the id is a non-empty run of digits that
    follows a [#] in the message, the whole run (no digit comes after
    it), and no reference starts before that [#]; when it finds none, no
    [#] of the message is followed by a digit. *)
Theorem inquiryIdMatch_first_reference s :
  (∀ id, inquiryIdMatch s = Some id →
     id ≠ EmptyString ∧ allDigits id = true ∧
     ∃ pre post, s = pre ++ String "#" (id ++ post) ∧
                 inquiryIdMatch pre = None ∧
                 takeDigits post = EmptyString) ∧
  (inquiryIdMatch s = None →
   ∀ pre c post, s = pre ++ String "#" (String c post) → isDigit c = false).
Proof.
  split.
  - induction s as [|c r IH]; intros id; [done|].
    rewrite inquiryIdMatch_cons.
    destruct (Ascii.eqb c "#") eqn:Hc.
    + apply Ascii.eqb_eq in Hc as ->.
      destruct (takeDigits r) as [|a ds] eqn:Hd.
      * intros Hm. destruct (IH id Hm) as (Hne & Hall & pre & post & Hr & Hpre & Hpost).
        repeat split; [done..|].
        exists (String "#" pre), post. rewrite append_cons, <- Hr.
        repeat split; [|done].
        rewrite inquiryIdMatch_cons. simpl.
        rewrite Hr, takeDigits_app_hash in Hd. by rewrite Hd.
      * intros [= <-]. split; [done|]. split.
        { rewrite <- Hd. apply takeDigits_allDigits. }
        destruct (takeDigits_split r) as (post & Hr & Hpost).
        exists EmptyString, post. rewrite append_nil_l, <- Hd, <- Hr. done.
    + intros Hm. destruct (IH id Hm) as (Hne & Hall & pre & post & Hr & Hpre & Hpost).
      repeat split; [done..|].
      exists (String c pre), post. rewrite append_cons, <- Hr.
      repeat split; [|done]. by rewrite inquiryIdMatch_cons, Hc.
  - induction s as [|a r IH]; intros Hm pre c post Hs.
    + by destruct pre.
    + rewrite inquiryIdMatch_cons in Hm. destruct pre as [|b pre].
      * rewrite append_nil_l in Hs. injection Hs as -> ->.
        simpl in Hm. by destruct (isDigit c).
      * rewrite append_cons in Hs. injection Hs as -> ->.
        eapply IH; [|reflexivity].
        destruct (Ascii.eqb b "#"); [|done].
        by destruct (takeDigits (pre ++ String "#" (String c post))).
Qed.

(** ** The ingestion script: retries *)

Section Retry.
Context {A : Type} (operation : nat → Attempt A) (maxAttempts baseDelayMs : nat).

Lemma retryLoop_attempts remaining attempt :
  (attempts (retryLoop operation maxAttempts baseDelayMs remaining attempt)
   ≤ remaining)%nat ∧
  (0 < remaining →
   0 < attempts (retryLoop operation maxAttempts baseDelayMs remaining attempt))%nat.
Proof.
  revert attempt. induction remaining as [|remaining IH]; intros attempt; simpl.
  { lia. }
  destruct (operation attempt) as [a|message]; simpl; [lia|].
  destruct ((attempt =? maxAttempts)%nat || negb (isRetryable message)); simpl;
    [lia|]. destruct (IH (S attempt)). lia.
Qed.

Lemma retryLoop_delays remaining attempt :
  (remaining + attempt = maxAttempts + 1)%nat → (1 ≤ attempt)%nat →
  delays (retryLoop operation maxAttempts baseDelayMs remaining attempt)
  = map (λ i, baseDelayMs * 2 ^ i)%nat
        (seq (attempt - 1)
             (pred (attempts (retryLoop operation maxAttempts baseDelayMs
                                remaining attempt)))).
Proof.
  revert attempt.
  induction remaining as [|remaining IH]; intros attempt Hinv Hpos1;
    simpl; [done|].
  destruct (operation attempt) as [a|message]; simpl; [done|].
  destruct (Nat.eqb_spec attempt maxAttempts) as [Heq|Hne]; simpl; [done|].
  destruct (isRetryable message); simpl; [|done].
  rewrite IH by lia.
  destruct (retryLoop_attempts remaining (S attempt)) as [_ Hpos].
  assert (0 < remaining)%nat as Hrem by lia. specialize (Hpos Hrem).
  destruct (attempts (retryLoop operation maxAttempts baseDelayMs remaining
                        (S attempt))) as [|n] eqn:Hn; [lia|].
  simpl. destruct attempt as [|attempt]; [lia|]. simpl.
  by rewrite Nat.sub_0_r.
Qed.

(** X18. [retryOperation] calls the operation at most [maxAttempts]
    times and waits only between two calls, never after the last one;
    the waits double: the first is [baseDelayMs], the [i]-th is
    [baseDelayMs * 2^(i-1)]. *)
Theorem retry_backoff_schedule :
  (attempts (retryOperation operation maxAttempts baseDelayMs) ≤ maxAttempts)%nat ∧
  delays (retryOperation operation maxAttempts baseDelayMs)
  = map (λ i, baseDelayMs * 2 ^ i)%nat
        (seq 0 (pred (attempts (retryOperation operation maxAttempts baseDelayMs)))).
Proof.
  unfold retryOperation. split.
  - apply retryLoop_attempts.
  - by rewrite retryLoop_delays by lia.
Qed.

Lemma retryLoop_settled remaining attempt :
  (remaining + attempt = maxAttempts + 1)%nat → (1 ≤ attempt)%nat →
  match settled (retryLoop operation maxAttempts baseDelayMs remaining attempt) with
  | Returns a =>
      ∃ k, (attempt ≤ k ≤ maxAttempts)%nat ∧ operation k = Resolved a ∧
           ∀ j, (attempt ≤ j < k)%nat → failsRetryably operation j
  | Throws message =>
      ∃ k, (attempt ≤ k ≤ maxAttempts)%nat ∧ operation k = Failed message ∧
           (k = maxAttempts ∨ isRetryable message = false) ∧
           ∀ j, (attempt ≤ j < k)%nat → failsRetryably operation j
  | ReturnsUndefined => remaining = 0%nat
  end.
Proof.
  revert attempt. induction remaining as [|remaining IH]; intros attempt Hinv Hpos;
    simpl; [done|].
  destruct (operation attempt) as [a|message] eqn:Hop; simpl.
  { exists attempt. repeat split; [lia..|done|intros; lia]. }
  destruct (Nat.eqb_spec attempt maxAttempts) as [Heq|Hne]; simpl.
  { exists attempt. repeat split; [lia..|done|by left|intros; lia]. }
  destruct (isRetryable message) eqn:Hr; simpl.
  2:{ exists attempt. repeat split; [lia..|done|by right|intros; lia]. }
  specialize (IH (S attempt) ltac:(lia) ltac:(lia)).
  assert (∀ k j, (attempt ≤ j < k)%nat →
            (∀ j, (S attempt ≤ j < k)%nat → failsRetryably operation j) →
            failsRetryably operation j) as Hext.
  { intros k j Hj Hall. destruct (decide (j = attempt)) as [->|];
      [by exists message|apply Hall; lia]. }
  destruct (settled (retryLoop operation maxAttempts baseDelayMs remaining
                       (S attempt))) as [a|m|].
  - destruct IH as (k & Hk & Hres & Hall). exists k.
    repeat split; [lia..|done|eauto].
  - destruct IH as (k & Hk & Hres & Hlast & Hall). exists k.
    repeat split; [lia..|done|done|eauto].
  - lia.
Qed.

(** X19. [retryOperation] returns a result exactly when one of the first
    [maxAttempts] calls succeeds after calls that all failed with errors
    that are retried, and the result is that call's; the operation is
    not called again after it. *)
Theorem retry_returns_first_success a :
  settled (retryOperation operation maxAttempts baseDelayMs) = Returns a ↔
  ∃ k, (1 ≤ k ≤ maxAttempts)%nat ∧ operation k = Resolved a ∧
       ∀ j, (1 ≤ j < k)%nat → failsRetryably operation j.
Proof.
  unfold retryOperation.
  pose proof (retryLoop_settled maxAttempts 1 ltac:(lia) ltac:(lia)) as Hs.
  split.
  - intros Heq. by rewrite Heq in Hs.
  - intros (k & Hk & Hres & Hall).
    destruct (settled (retryLoop operation maxAttempts baseDelayMs maxAttempts 1))
      as [a'|m|].
    + destruct Hs as (k' & Hk' & Hres' & Hall').
      destruct (Nat.lt_trichotomy k k') as [Hlt|[->|Hgt]].
      * destruct (Hall' k ltac:(lia)) as (m & Hm & _). congruence.
      * congruence.
      * destruct (Hall k' ltac:(lia)) as (m & Hm & _). congruence.
    + destruct Hs as (k' & Hk' & Hres' & Hlast & Hall').
      destruct (Nat.lt_trichotomy k k') as [Hlt|[->|Hgt]].
      * destruct (Hall' k ltac:(lia)) as (m' & Hm & _). congruence.
      * congruence.
      * destruct (Hall k' ltac:(lia)) as (m' & Hm & Hr).
        destruct Hlast as [->|Hnr]; [lia|]. congruence.
    + lia.
Qed.

(** X20. [retryOperation] rethrows an error exactly when, after calls
    that all failed with retried errors, a call fails either on the last
    attempt or with an error that is not retried (its message mentions
    '404' or 'index not found'): such an error is rethrown at once, and
    the message is that call's. *)
Theorem retry_throws_last_or_fatal message :
  settled (retryOperation operation maxAttempts baseDelayMs) = Throws message ↔
  ∃ k, (1 ≤ k ≤ maxAttempts)%nat ∧ operation k = Failed message ∧
       (k = maxAttempts ∨ isRetryable message = false) ∧
       ∀ j, (1 ≤ j < k)%nat → failsRetryably operation j.
Proof.
  unfold retryOperation.
  pose proof (retryLoop_settled maxAttempts 1 ltac:(lia) ltac:(lia)) as Hs.
  split.
  - intros Heq. by rewrite Heq in Hs.
  - intros (k & Hk & Hres & Hlast & Hall).
    destruct (settled (retryLoop operation maxAttempts baseDelayMs maxAttempts 1))
      as [a'|m|].
    + destruct Hs as (k' & Hk' & Hres' & Hall').
      destruct (Nat.lt_trichotomy k k') as [Hlt|[->|Hgt]].
      * destruct (Hall' k ltac:(lia)) as (m' & Hm & Hr).
        destruct Hlast as [->|Hnr]; [lia|]. congruence.
      * congruence.
      * destruct (Hall k' ltac:(lia)) as (m' & Hm & _). congruence.
    + destruct Hs as (k' & Hk' & Hres' & Hlast' & Hall').
      destruct (Nat.lt_trichotomy k k') as [Hlt|[->|Hgt]].
      * destruct (Hall' k ltac:(lia)) as (m' & Hm & Hr).
        destruct Hlast as [->|Hnr]; [lia|]. congruence.
      * congruence.
      * destruct (Hall k' ltac:(lia)) as (m' & Hm & Hr).
        destruct Hlast' as [->|Hnr]; [lia|]. congruence.
    + lia.
Qed.

End Retry.

(** ** The ingestion script: waiting for the index *)

Section Polling.
Context (describe : nat → nat → Attempt bool) (indexName : string)
  (maxAttempts delayMs : nat).

Lemma waitLoop_settled remaining attempt :
  (remaining + attempt = maxAttempts + 1)%nat → (1 ≤ attempt)%nat →
  match settled (waitLoop describe indexName maxAttempts delayMs remaining attempt) with
  | Returns ready =>
      ready = true ∧
      ∃ k, (attempt ≤ k ≤ maxAttempts)%nat ∧ pollReady describe k ∧
           ∀ j, (attempt ≤ j < k)%nat → ¬ pollReady describe j
  | Throws message =>
      message = notReadyMessage indexName maxAttempts ∧
      (∃ cause, settled (retryOperation (describe maxAttempts) 3 1000) = Throws cause) ∧
      ∀ j, (attempt ≤ j ≤ maxAttempts)%nat → ¬ pollReady describe j
  | ReturnsUndefined =>
      ∀ j, (attempt ≤ j ≤ maxAttempts)%nat → ¬ pollReady describe j
  end.
Proof.
  revert attempt. induction remaining as [|remaining IH]; intros attempt Hinv Hpos;
    simpl.
  { intros j Hj. lia. }
  specialize (IH (S attempt) ltac:(lia) ltac:(lia)).
  assert (∀ P : nat → Prop, P attempt →
            (∀ j, (S attempt ≤ j ≤ maxAttempts)%nat → P j) →
            ∀ j, (attempt ≤ j ≤ maxAttempts)%nat → P j) as Hall.
  { intros P H0 Hrest j Hj. destruct (decide (j = attempt)) as [->|];
      [done|apply Hrest; lia]. }
  assert (∀ k (P : nat → Prop), P attempt →
            (∀ j, (S attempt ≤ j < k)%nat → P j) →
            ∀ j, (attempt ≤ j < k)%nat → P j) as Hbelow.
  { intros k P H0 Hrest j Hj. destruct (decide (j = attempt)) as [->|];
      [done|apply Hrest; lia]. }
  destruct (settled (retryOperation (describe attempt) 3 1000))
    as [[|]|message|] eqn:Hpoll; simpl.
  - split; [done|]. exists attempt. repeat split; [lia..|done|intros; lia].
  - assert (¬ pollReady describe attempt) as Hnot
      by (unfold pollReady; by rewrite Hpoll).
    destruct (settled (waitLoop describe indexName maxAttempts delayMs remaining
                         (S attempt))) as [ready|m|].
    + destruct IH as (-> & k & Hk & Hready & Hbefore). split; [done|].
      exists k. repeat split; [lia..|done|]. by apply Hbelow.
    + destruct IH as (-> & Hcause & Hnone). repeat split; [done|]. by apply Hall.
    + by apply Hall.
  - assert (¬ pollReady describe attempt) as Hnot
      by (unfold pollReady; by rewrite Hpoll).
    destruct (Nat.eqb_spec attempt maxAttempts) as [->|Hne]; simpl.
    { repeat split; [by eexists|]. intros j Hj.
      by replace j with maxAttempts by lia. }
    destruct (settled (waitLoop describe indexName maxAttempts delayMs remaining
                         (S attempt))) as [ready|m|].
    + destruct IH as (-> & k & Hk & Hready & Hbefore). split; [done|].
      exists k. repeat split; [lia..|done|]. by apply Hbelow.
    + destruct IH as (-> & Hcause & Hnone). repeat split; [done|]. by apply Hall.
    + by apply Hall.
  - assert (¬ pollReady describe attempt) as Hnot
      by (unfold pollReady; by rewrite Hpoll).
    destruct (settled (waitLoop describe indexName maxAttempts delayMs remaining
                         (S attempt))) as [ready|m|].
    + destruct IH as (-> & k & Hk & Hready & Hbefore). split; [done|].
      exists k. repeat split; [lia..|done|]. by apply Hbelow.
    + destruct IH as (-> & Hcause & Hnone). repeat split; [done|]. by apply Hall.
    + by apply Hall.
Qed.

(** X23. [waitForIndexReady] returns [true] exactly when one of its
    first [maxAttempts] polls finds the index ready. A poll that throws
    does not end the wait before the last attempt, whatever the error:
    also the 'index not found' that [retryOperation] itself gives up on
    at once is polled again. *)
Theorem wait_returns_when_a_poll_is_ready :
  settled (waitForIndexReady describe indexName maxAttempts delayMs) = Returns true ↔
  ∃ k, (1 ≤ k ≤ maxAttempts)%nat ∧ pollReady describe k.
Proof.
  unfold waitForIndexReady.
  pose proof (waitLoop_settled maxAttempts 1 ltac:(lia) ltac:(lia)) as Hs.
  split.
  - intros Heq. rewrite Heq in Hs. destruct Hs as (_ & k & Hk & Hready & _). eauto.
  - intros (k & Hk & Hready).
    destruct (settled (waitLoop describe indexName maxAttempts delayMs
                         maxAttempts 1)) as [ready|m|].
    + by destruct Hs as [-> _].
    + destruct Hs as (_ & _ & Hnone). by destruct (Hnone k).
    + by destruct (Hs k).
Qed.

(** X24. When [waitForIndexReady] gives up, the error it throws is
    'Index <name> not ready after <maxAttempts> attempts', whatever
    made the polls fail; and it gives up only when the last poll threw
    and no poll found the index ready. *)
Theorem wait_gives_up_with_fixed_message message :
  settled (waitForIndexReady describe indexName maxAttempts delayMs) = Throws message →
  message = notReadyMessage indexName maxAttempts ∧
  (∃ cause, settled (retryOperation (describe maxAttempts) 3 1000) = Throws cause) ∧
  ∀ k, (1 ≤ k ≤ maxAttempts)%nat → ¬ pollReady describe k.
Proof.
  unfold waitForIndexReady. intros Heq.
  pose proof (waitLoop_settled maxAttempts 1 ltac:(lia) ltac:(lia)) as Hs.
  by rewrite Heq in Hs.
Qed.

End Polling.

(** ** The ingestion script: embedding in batches *)

Section Batches.
Context {V : Type}.
Implicit Types (embed : nat → list string → nat → Attempt (Response V))
  (texts : list string).

Lemma embedLoop_step fuel embed texts b acc :
  (b * BATCH_SIZE < length texts)%nat →
  embedLoop (S fuel) embed texts (b * BATCH_SIZE) acc
  = match batchOutcome embed texts b with
    | Resolved batchEmbeddings =>
        embedLoop fuel embed texts (S b * BATCH_SIZE) (acc ++ batchEmbeddings)%list
    | Failed message => Failed message
    end.
Proof.
  intros Hlt. unfold embedLoop at 1. fold (@embedLoop V).
  apply Nat.ltb_lt in Hlt. rewrite Hlt.
  unfold batchOutcome, batchOf.
  rewrite Nat.div_mul by done.
  replace (S b * BATCH_SIZE)%nat with (b * BATCH_SIZE + BATCH_SIZE)%nat by lia.
  destruct (settled _) as [response|message|]; [|done..].
  by destruct (readEmbeddings response).
Qed.

Lemma embedLoop_done fuel embed texts i acc :
  (length texts ≤ i)%nat → embedLoop fuel embed texts i acc = Resolved acc.
Proof.
  intros Hge. apply Nat.ltb_ge in Hge. destruct fuel; simpl; by rewrite Hge.
Qed.

Lemma take_next_batch {A} (l : list A) b :
  (take (b * BATCH_SIZE) l ++ slice (b * BATCH_SIZE) (b * BATCH_SIZE + BATCH_SIZE) l)%list
  = take (S b * BATCH_SIZE) l.
Proof.
  unfold slice.
  replace (b * BATCH_SIZE + BATCH_SIZE - b * BATCH_SIZE)%nat with BATCH_SIZE by lia.
  replace (S b * BATCH_SIZE)%nat with (b * BATCH_SIZE + BATCH_SIZE)%nat by lia.
  by rewrite take_take_drop.
Qed.

Lemma embedLoop_aligned (f : string → Embedding V) embed texts fuel b :
  (∀ b', (b' * BATCH_SIZE < length texts)%nat →
         batchOutcome embed texts b' = Resolved (map f (batchOf texts b'))) →
  (length texts - b * BATCH_SIZE ≤ fuel)%nat →
  embedLoop fuel embed texts (b * BATCH_SIZE) (map f (take (b * BATCH_SIZE) texts))
  = Resolved (map f texts).
Proof.
  intros Hok. revert b. induction fuel as [|fuel IH]; intros b Hfuel.
  - rewrite embedLoop_done by lia. by rewrite take_ge by lia.
  - destruct (Nat.lt_ge_cases (b * BATCH_SIZE) (length texts)) as [Hlt|Hge].
    + rewrite embedLoop_step, Hok by done. unfold batchOf.
      rewrite <- map_app, take_next_batch. apply IH.
      unfold BATCH_SIZE in *. lia.
    + rewrite embedLoop_done by lia. by rewrite take_ge by lia.
Qed.

(** X21. Embeddings stay aligned with the texts: when the service
    answers every batch (on some attempt, in any of the three shapes
    read) with one embedding per text of the batch, in order,
    [generateEmbeddings] returns one embedding per text, in the order of
    the texts, however many batches of 96 that takes. *)
Theorem embeddings_aligned_with_texts (f : string → Embedding V) embed texts :
  (∀ b, (b * BATCH_SIZE < length texts)%nat →
        batchOutcome embed texts b = Resolved (map f (batchOf texts b))) →
  generateEmbeddings true embed texts = Resolved (map f texts) ∧
  ∀ i text, texts !! i = Some text →
    match generateEmbeddings true embed texts with
    | Resolved embeddings => embeddings !! i = Some (f text)
    | Failed _ => False
    end.
Proof.
  intros Hok.
  assert (generateEmbeddings true embed texts = Resolved (map f texts)) as Hg.
  { unfold generateEmbeddings.
    change (embedLoop (length texts) embed texts 0 [])
      with (embedLoop (length texts) embed texts (0 * BATCH_SIZE)
              (map f (take (0 * BATCH_SIZE) texts))).
    rewrite (embedLoop_aligned f embed texts _ 0 Hok); [done|lia]. }
  split; [done|]. intros i text Hi. rewrite Hg.
  by rewrite list_lookup_fmap, Hi.
Qed.

Lemma embedLoop_first_failure embed texts b0 message fuel b acc :
  (b ≤ b0)%nat → (b0 * BATCH_SIZE < length texts)%nat →
  (length texts - b * BATCH_SIZE ≤ fuel)%nat →
  (∀ b', (b ≤ b' < b0)%nat → ∃ l, batchOutcome embed texts b' = Resolved l) →
  batchOutcome embed texts b0 = Failed message →
  embedLoop fuel embed texts (b * BATCH_SIZE) acc = Failed message.
Proof.
  intros Hle Hlt Hfuel Hok Hfail. revert b acc Hle Hfuel Hok.
  induction fuel as [|fuel IH]; intros b acc Hle Hfuel Hok.
  { unfold BATCH_SIZE in *. lia. }
  assert (b * BATCH_SIZE < length texts)%nat as Hb
    by (unfold BATCH_SIZE in *; lia).
  rewrite embedLoop_step by done.
  destruct (decide (b = b0)) as [->|Hne]; [by rewrite Hfail|].
  destruct (Hok b ltac:(lia)) as [l ->].
  apply IH; [lia|unfold BATCH_SIZE in *; lia|].
  intros b' Hb'. apply Hok. lia.
Qed.

(** X22. No partial result: when the batches before number [b0] were
    answered and batch [b0] is not (its retries end in an error, or the
    response has none of the shapes read), [generateEmbeddings] throws:
    the embeddings already collected are dropped and later batches are
    not requested. The error is rethrown under the connection message
    when it mentions 'ENOTFOUND' or 'PineconeConnectionError', and with
    the prefix 'Failed to generate embeddings: ' otherwise. *)
Theorem embeddings_fail_at_first_bad_batch embed texts b0 message :
  (b0 * BATCH_SIZE < length texts)%nat →
  (∀ b, (b < b0)%nat → ∃ l, batchOutcome embed texts b = Resolved l) →
  batchOutcome embed texts b0 = Failed message →
  generateEmbeddings true embed texts = Failed (rethrown message).
Proof.
  intros Hlt Hok Hfail. unfold generateEmbeddings.
  change (embedLoop (length texts) embed texts 0 [])
    with (embedLoop (length texts) embed texts (0 * BATCH_SIZE) []).
  rewrite (embedLoop_first_failure embed texts b0 message); try done; try lia.
  intros b' Hb'. apply Hok. lia.
Qed.

End Batches.

(** ** Conversations are runs of the handler *)

Section Runs.
Context {Number : Type} `{!JSNumber Number}.


End Runs.

(** * The server run on the catalogue *)

Example atPINCODE_session :
  sessions atPINCODE !! buyer
  = Some {| state := PINCODE; data := sodium500 Undefined None |}.
Proof. vm_compute. reflexivity. Qed.

Example atEND_session :
  sessions atEND !! buyer
  = Some {| state := END; data := sodium500 (Value "390013") (Some pan) |}.
Proof. vm_compute. reflexivity. Qed.

Example atEND_inquiry :
  inquiries atEND !! "1712000000000" = Some sodiumInquiry.
Proof. vm_compute. reflexivity. Qed.

Example atEND_outbox :
  map msg_to (outbox atEND)
  = ["whatsapp:+919800000001"; "whatsapp:+919800000003"; "whatsapp:+919800000002"].
Proof. vm_compute. reflexivity. Qed.

(** ** Matching engine *)

(** The scenario of the specification: of two Sodium suppliers only the
    one in region 39 is returned to a requester at 390013. *)
Lemma search_at_most_five_same_region_witness :
  performSearch (worldWith [acme; bharat]) sodiumNearby = Some [acme] ∧
  (length [acme] ≤ 5)%nat ∧
  Forall (λ m, slice0 2 (PIN_Code m) = "39") [acme].
Proof.
  assert (performSearch (worldWith [acme; bharat]) sodiumNearby = Some [acme])
    as Hs by reflexivity.
  destruct (search_at_most_five_same_region _ _ _ Hs) as [Hlen Hsame].
  destruct (Hsame "390013" eq_refl eq_refl) as [_ Heq]; [discriminate|].
  split; [exact Hs|]. split; [exact Hlen|]. apply Heq. simpl. lia.
Defined.



(** ** Conversations *)

(** A buyer who greets, names a product, skips the category, needs two
    attempts for the quantity, the pincode and the preference. *)
Lemma dialogue_reaches_END_witness :
  sessions
    (converse buyer
       ([(market, "Hi"); (market, "  Sodium "); (market, "SKIP")] ++
        [(market, "a lot")] ++ [(market, "500")] ++
        [(market, "39001")] ++ [(market, "390013")] ++
        [(market, "nearby")] ++ [(market, "Same")])
       startup) !! buyer
  = Some {| state := END; data := sodium500 (Value "390013") (Some same) |}.
Proof.
  assert (answered "  Sodium " "SKIP" "500" "390013" "Same"
          = sodium500 (Value "390013") (Some same)) as <-
    by (vm_compute; reflexivity).
  apply (dialogue_reaches_END buyer startup
           (market, "Hi") (market, "  Sodium ") (market, "SKIP")
           (market, "500") (market, "390013") (market, "Same")
           [(market, "a lot")] [(market, "39001")] [(market, "nearby")]);
    try reflexivity; try (repeat constructor); discriminate.
Defined.

Lemma stop_then_fresh_session_witness :
  webhook market buyer "STOP" atPROXIMITY
  = (deleteSession buyer atPROXIMITY, Reply msgTerminated) ∧
  sessions (deleteSession buyer atPROXIMITY) !! buyer = None ∧
  webhook market buyer "Sodium" (deleteSession buyer atPROXIMITY)
  = (putSession buyer {| state := PRODUCT_NAME; data := emptyRequest |}
       (deleteSession buyer atPROXIMITY),
     Reply msgWelcome).
Proof.
  destruct (stop_then_fresh_session market market buyer "STOP" "Sodium" atPROXIMITY)
    as (H1 & H2 & H3); [reflexivity|right; reflexivity|reflexivity|reflexivity|].
  split; [exact H1|]. split; [exact H2|]. apply H3, H2.
Defined.

(** C4 as stated fails: text other than 'hello' from a sender with no
    Session does not always create one at the welcome prompt. A message
    that carries a correlation reference goes to the broker and no
    Session is created; 'stop' is answered with the termination message
    and leaves no Session. *)
Lemma fresh_session_counterexample :
  sessions startup !! buyer = None ∧
  (webhook market buyer "#7" startup).2 = Reply msgInquiryNotFound ∧
  sessions (webhook market buyer "#7" startup).1 !! buyer = None ∧
  (webhook market buyer "stop" startup).2 = Reply msgTerminated ∧
  sessions (webhook market buyer "stop" startup).1 !! buyer = None.
Proof. repeat split; vm_compute; reflexivity. Qed.

(** ** Supplier replies *)

Lemma correlation_message_keeps_sessions_witness :
  sessions (webhook market "whatsapp:+919800000001"
              "Rs 40/kg for #1712000000000" atEND).1
  = sessions atEND.
Proof.
  apply correlation_message_keeps_sessions. vm_compute. by eexists.
Defined.

(** After the search of [atEND] has recorded its inquiry: the reply of a
    contacted supplier is forwarded to the buyer, one more message in the
    outbox; the same reply from an address that was not contacted is
    turned down, and a reply that names another inquiry finds none. *)
Lemma reply_routing_witness :
  ((webhook market "whatsapp:+919800000001" "Rs 40/kg for #1712000000000" atEND).2
   = Reply msgForwarded ∧
   outbox (webhook market "whatsapp:+919800000001"
             "Rs 40/kg for #1712000000000" atEND).1
   = (outbox atEND ++
      [{| msg_from := twilioNumber; msg_to := buyer;
          msg_body := "Quotation for Sodium from Acme Salts (+919800000001): Rs 40/kg for #1712000000000" |}])%list) ∧
  webhook market "whatsapp:+919811111111" "Rs 40/kg for #1712000000000" atEND
  = (atEND, Reply msgNotParty) ∧
  webhook market "whatsapp:+919800000001" "Rs 40/kg for #42" atEND
  = (atEND, Reply msgInquiryNotFound).
Proof.
  split; [|split].
  - destruct (reply_routing market "whatsapp:+919800000001"
                "Rs 40/kg for #1712000000000" "1712000000000" atEND eq_refl)
      as [Hknown _].
    destruct (Hknown sodiumInquiry atEND_inquiry) as [Hparty _].
    destruct Hparty
      as (Hstatus & _ & _ & m & sup & Hout & Hfrom & Hto & Hin & Hnum & Hbody).
    + exists (toSupplier acme). split; [|reflexivity].
      apply list_elem_of_In. left. reflexivity.
    + reflexivity.
    + split; [exact Hstatus|]. rewrite Hout.
      specialize (Hbody eq_refl). destruct m as [f t b].
      simpl in Hfrom, Hto, Hbody. rewrite Hfrom, Hto, Hbody.
      apply list_elem_of_In in Hin.
      destruct Hin as [<-|[<-|[<-|[]]]]; try discriminate Hnum. reflexivity.
  - destruct (reply_routing market "whatsapp:+919811111111"
                "Rs 40/kg for #1712000000000" "1712000000000" atEND eq_refl)
      as [Hknown _].
    destruct (Hknown sodiumInquiry atEND_inquiry) as [_ Hother].
    apply Hother. intros sup Hin. apply list_elem_of_In in Hin.
    destruct Hin as [<-|[<-|[<-|[]]]]; discriminate.
  - destruct (reply_routing market "whatsapp:+919800000001"
                "Rs 40/kg for #42" "42" atEND eq_refl) as [_ Hunknown].
    apply Hunknown. vm_compute. reflexivity.
Defined.

(** C5 as stated fails: a message that contains '#I', I the id of a
    stored Inquiry, from a contacted supplier, is not always forwarded.
    The handler routes by the first reference in the text, and takes the
    whole run of digits: with another reference ahead of '#I', or a digit
    right after it, the answer is the not-found status. Besides, when the
    transport refuses the forward, the handler's promise is rejected and
    no status is returned. *)
Lemma reply_later_reference_counterexample :
  inquiries atEND !! "1712000000000" = Some sodiumInquiry ∧
  toSupplier acme ∈ suppliers sodiumInquiry ∧
  number (toSupplier acme) = Some (removeFirst "whatsapp:" "whatsapp:+919800000001") ∧
  includes "re #42: Rs 40/kg for #1712000000000" "#1712000000000" = true ∧
  webhook market "whatsapp:+919800000001"
    "re #42: Rs 40/kg for #1712000000000" atEND
  = (atEND, Reply msgInquiryNotFound) ∧
  includes "Rs 40/kg for #17120000000001" "#1712000000000" = true ∧
  webhook market "whatsapp:+919800000001" "Rs 40/kg for #17120000000001" atEND
  = (atEND, Reply msgInquiryNotFound) ∧
  webhook (withTransport (λ _, false) market) "whatsapp:+919800000001"
    "Rs 40/kg for #1712000000000" atEND
  = (atEND, Rejected).
Proof.
  repeat split; try (vm_compute; reflexivity).
  apply list_elem_of_In. left. reflexivity.
Qed.

(** ** Recording an inquiry *)

Lemma inquiry_recorded_iff_matched_witness :
  performSearch market sodiumAnywhere = Some [acme; coastal; bharat] ∧
  inquiries (performSearchAndFormat market sodiumAnywhere buyer startup).1
  = <[ "1712000000000" := sodiumInquiry ]> ∅ ∧
  (performSearchAndFormat market sodiumAnywhere buyer startup).2
  = Some "We have sent your inquiry #1712000000000 to 3 suppliers. You will receive their responses within 24 hours.".
Proof.
  assert (performSearch market sodiumAnywhere = Some [acme; coastal; bharat])
    as Hs by reflexivity.
  destruct (inquiry_recorded_iff_matched market sodiumAnywhere buyer startup
              _ Hs) as (_ & Hrec & _ & Hsent).
  split; [exact Hs|]. split.
  - apply Hrec. discriminate.
  - apply Hsent. discriminate.
Defined.

(** C7 as stated fails: the only candidate has no contact number, the
    buyer is told so, and yet the inquiry store has a new record. *)
Lemma inquiry_without_contact_counterexample :
  performSearch (worldWith [unlisted]) sodiumAnywhere = Some [unlisted] ∧
  contactNumbers [unlisted] = [] ∧
  inquiries startup !! "1712000000000" = None ∧
  inquiries (performSearchAndFormat (worldWith [unlisted]) sodiumAnywhere buyer
               startup).1 !! "1712000000000"
  = Some {| user := buyer; productName := Some "Sodium";
            suppliers := [toSupplier unlisted] |} ∧
  (performSearchAndFormat (worldWith [unlisted]) sodiumAnywhere buyer
     startup).2 = Some msgNoContacts.
Proof. repeat split; vm_compute; reflexivity. Qed.

(** ** The PINCODE and END steps *)

Lemma pincode_step_witness :
  (∃ srv',
     webhook market buyer "skip" atPINCODE
     = (putSession buyer {| state := END; data := sodium500 Null None |} srv',
        Reply ("We have sent your inquiry #1712000000000 to 3 suppliers. You will receive their responses within 24 hours."
               ++ searchAgainSuffix))) ∧
  webhook market buyer "390013" atPINCODE
  = (putSession buyer
       {| state := PROXIMITY; data := sodium500 (Value "390013") None |} atPINCODE,
     Reply askProximity) ∧
  webhook market buyer "39001" atPINCODE = (atPINCODE, Reply badPincode).
Proof.
  split; [|split].
  - destruct (pincode_step market buyer "skip" atPINCODE _ atPINCODE_session
                eq_refl eq_refl) as (Hskip & _ & _).
    destruct Hskip as (srv' & r & Hr & ->); [reflexivity|discriminate|].
    exists srv'. apply (f_equal snd) in Hr. vm_compute in Hr.
    injection Hr as <-. reflexivity.
  - destruct (pincode_step market buyer "390013" atPINCODE _ atPINCODE_session
                eq_refl eq_refl) as (_ & Hsix & _).
    apply Hsix. reflexivity.
  - destruct (pincode_step market buyer "39001" atPINCODE _ atPINCODE_session
                eq_refl eq_refl) as (_ & _ & Hagain).
    apply Hagain; reflexivity.
Defined.

(** C6 as stated fails: 'skip' in state PINCODE does not lead to the
    proximity question and state PROXIMITY; the search runs and the
    session is in state END. *)
Lemma pincode_skip_counterexample :
  state <$> sessions atPINCODE !! buyer = Some PINCODE ∧
  state <$> sessions (webhook market buyer "skip" atPINCODE).1 !! buyer = Some END ∧
  pincode <$> (data <$> sessions (webhook market buyer "skip" atPINCODE).1 !! buyer)
  = Some Null ∧
  (webhook market buyer "skip" atPINCODE).2
  = Reply ("We have sent your inquiry #1712000000000 to 3 suppliers. You will receive their responses within 24 hours."
           ++ searchAgainSuffix) ∧
  (webhook market buyer "skip" atPINCODE).2 ≠ Reply askProximity.
Proof. repeat split; try (vm_compute; reflexivity). vm_compute. discriminate. Qed.



(** ** Failures of the collaborators *)

(** The buyer answers 'same' while the embedding model is down: no
    reply, and the session still waits in PROXIMITY. With the index down
    instead, the reply is the no-suppliers message and the state END. *)
Lemma embedder_failure_rejects_witness :
  webhook (embedderDown [acme; bharat]) buyer "same" atPROXIMITY
  = (putSession buyer
       {| state := PROXIMITY; data := sodium500 (Value "390013") (Some same) |}
       atPROXIMITY,
     Rejected) ∧
  webhook indexDown buyer "same" atPROXIMITY
  = (putSession buyer
       {| state := END; data := sodium500 (Value "390013") (Some same) |}
       atPROXIMITY,
     Reply (msgNoSuppliers ++ searchAgainSuffix)).
Proof.
  split.
  - apply (embedder_failure_rejects (embedderDown [acme; bharat]) buyer "same"
             atPROXIMITY
             {| state := PROXIMITY; data := sodium500 (Value "390013") None |} same);
      reflexivity.
  - apply (index_failure_degrades indexDown buyer "same" atPROXIMITY
             {| state := PROXIMITY; data := sodium500 (Value "390013") None |}
             same []); reflexivity.
Defined.

(** * The further properties on the catalogue *)

Lemma search_returns_index_matches_witness :
  [acme; coastal; bharat] ⊆+ [bharat; acme; coastal] ∧
  [acme] `sublist_of` [acme; bharat].
Proof.
  split.
  - apply (search_returns_index_matches market sodiumAnywhere [] _ _
             eq_refl eq_refl eq_refl).
  - apply (search_returns_index_matches (worldWith [acme; bharat]) sodiumNearby
             [] _ _ eq_refl eq_refl eq_refl). discriminate.
Defined.

Lemma search_matches_product_name_witness :
  Forall (λ m, includes (toLowerCase (Product_Name m)) "sodium" = true)
         [acme; coastal; bharat].
Proof.
  apply (search_matches_product_name market sodiumAnywhere "Sodium" _ eq_refl);
    [discriminate|reflexivity| |reflexivity].
  intros v all _ Hq. injection Hq as <-.
  repeat (apply Forall_cons; split; [reflexivity|]). apply Forall_nil_2.
Defined.




Lemma dispatch_one_message_per_contact_witness :
  map msg_to
    (outbox (performSearchAndFormat acmeUnreachable sodiumAnywhere buyer startup).1)
  = ["whatsapp:+919800000003"; "whatsapp:+919800000002"].
Proof.
  rewrite (dispatch_one_message_per_contact acmeUnreachable sodiumAnywhere buyer
             startup [acme; coastal; bharat] eq_refl).
  reflexivity.
Defined.


Lemma webhook_keeps_inquiries_witness :
  is_Some (inquiries (webhook market buyer "thanks" atEND).1 !! "1712000000000") ∧
  inquiries (webhook market "whatsapp:+919800000001" "Rs 40 for #1712000000000" atEND).1
  = inquiries atEND.
Proof.
  split.
  - apply (webhook_keeps_inquiries market buyer "thanks" atEND).
    rewrite atEND_inquiry. by eexists.
  - apply (webhook_keeps_inquiries market "whatsapp:+919800000001"
             "Rs 40 for #1712000000000" atEND).
    vm_compute. by eexists.
Defined.

Lemma hello_restarts_witness :
  webhook market buyer " Hello " atPROXIMITY
  = (putSession buyer {| state := PRODUCT_NAME; data := emptyRequest |} atPROXIMITY,
     Reply msgWelcome).
Proof. apply hello_restarts. reflexivity. Defined.

Lemma yes_then_answer_is_dropped_witness :
  webhook market buyer "yes" atEND
  = (putSession buyer {| state := START; data := emptyRequest |} atEND,
     Reply msgRestart) ∧
  webhook market buyer "Potassium"
    (putSession buyer {| state := START; data := emptyRequest |} atEND)
  = (putSession buyer {| state := PRODUCT_NAME; data := emptyRequest |}
       (putSession buyer {| state := START; data := emptyRequest |} atEND),
     Reply msgWelcome).
Proof.
  apply (yes_then_answer_is_dropped market market buyer "yes" "Potassium" atEND _
           atEND_session eq_refl); [left| |]; reflexivity.
Defined.



Lemma skip_everything_witness :
  performSearch market allSkipped = Some [bharat; acme; coastal] ∧
  sessions (converse buyer
              [(market, "Hi"); (market, "skip"); (market, "Skip");
               (market, "SKIP"); (market, " skip ")] startup) !! buyer
  = Some {| state := END; data := allSkipped |}.
Proof.
  destruct (skip_everything buyer startup (market, "Hi") (market, "skip")
              (market, "Skip") (market, "SKIP") (market, " skip ") []
              [bharat; acme; coastal] eq_refl eq_refl eq_refl eq_refl eq_refl
              eq_refl eq_refl eq_refl eq_refl eq_refl) as (Hs & Hend & _).
  split; [exact Hs|exact Hend].
Defined.

Lemma inquiryIdMatch_first_reference_witness :
  ∃ pre post,
    "ref #a, quote for #1712 is 40" = pre ++ String "#" ("1712" ++ post) ∧
    inquiryIdMatch pre = None ∧ takeDigits post = EmptyString.
Proof.
  destruct (inquiryIdMatch_first_reference "ref #a, quote for #1712 is 40")
    as [Hsome _].
  destruct (Hsome "1712" eq_refl) as (_ & _ & Hsplit). exact Hsplit.
Defined.

(** ** Retries and batches *)

Lemma retry_returns_first_success_witness :
  settled (retryOperation thirdTimeLucky 3 1000) = Returns "ok" ∧
  delays (retryOperation thirdTimeLucky 3 1000) = [1000; 2000]%nat.
Proof.
  split; [|reflexivity].
  apply retry_returns_first_success. exists 3%nat.
  split; [lia|]. split; [reflexivity|].
  intros j Hj. exists "socket hang up".
  assert (j = 1 ∨ j = 2)%nat as [-> | ->] by lia; by split.
Defined.

Lemma retry_throws_last_or_fatal_witness :
  settled (retryOperation thenNotFound 3 1000)
  = Throws "HTTP 404: index not found" ∧
  attempts (retryOperation thenNotFound 3 1000) = 2%nat.
Proof.
  split; [|reflexivity].
  apply retry_throws_last_or_fatal. exists 2%nat.
  split; [lia|]. split; [reflexivity|]. split; [by right|].
  intros j Hj. exists "socket hang up".
  assert (j = 1)%nat as -> by lia. by split.
Defined.

Lemma embeddings_aligned_with_texts_witness :
  generateEmbeddings true steadyService hundredTexts
  = Resolved (map lengthEmbedding hundredTexts).
Proof.
  refine (proj1 (embeddings_aligned_with_texts lengthEmbedding steadyService
                   hundredTexts _)).
  intros b Hb. unfold BATCH_SIZE in Hb. simpl length in Hb.
  assert (b = 0 ∨ b = 1)%nat as [-> | ->] by lia; vm_compute; reflexivity.
Defined.

Lemma embeddings_fail_at_first_bad_batch_witness :
  generateEmbeddings true droppingService hundredTexts = Failed cannotConnect.
Proof.
  apply (embeddings_fail_at_first_bad_batch droppingService hundredTexts 1
           "getaddrinfo ENOTFOUND api.pinecone.io").
  - unfold BATCH_SIZE. simpl. lia.
  - intros b Hb. assert (b = 0)%nat as -> by lia. by eexists.
  - vm_compute. reflexivity.
Defined.

Lemma wait_returns_when_a_poll_is_ready_witness :
  settled (waitForIndexReady readyOnThirdPoll "dhandhoai-dataset" 30 10000)
  = Returns true ∧
  delays (waitForIndexReady readyOnThirdPoll "dhandhoai-dataset" 30 10000)
  = [10000; 10000]%nat.
Proof.
  split; [|reflexivity].
  apply wait_returns_when_a_poll_is_ready. exists 3%nat. split; [lia|reflexivity].
Defined.

Lemma wait_gives_up_with_fixed_message_witness :
  settled (waitForIndexReady neverReady "dhandhoai-dataset" 2 10000)
  = Throws "Index dhandhoai-dataset not ready after 2 attempts" ∧
  (∃ cause, settled (retryOperation (neverReady 2) 3 1000) = Throws cause) ∧
  ∀ k, (1 ≤ k ≤ 2)%nat → ¬ pollReady neverReady k.
Proof.
  assert (settled (waitForIndexReady neverReady "dhandhoai-dataset" 2 10000)
          = Throws "Index dhandhoai-dataset not ready after 2 attempts") as Hs
    by (vm_compute; reflexivity).
  split; [exact Hs|].
  apply (wait_gives_up_with_fixed_message neverReady "dhandhoai-dataset" 2 10000
           _ Hs).
Defined.
